(** * SMT API: the list and create handlers of [server.js]

    A shallow embedding of the query-string-to-SQL translation of
    [GET /api/v1/demons], of the schema-guarded [POST /api/v1/demons], of
    the start-up ([initDb], [seedData]) and of the earlier [GET /demons],
    with the properties the specification states about them and further
    properties read off the code.

    Conventions of the embedding.
    - A JavaScript string is a [string] holding its UTF-8 bytes, which is
      also how SQLite stores and compares TEXT (BINARY collation).  Every
      character the handlers look at (':', '_', digits, ASCII letters) is one
      byte and never part of a longer UTF-8 sequence.
    - A JavaScript number that comes out of [parseInt] is [Num z] with an
      exact integer [z], or [NaN].  This is exact while the values stay
      below 2^53 in magnitude ([Js.inRange], [Server.inRange], [Sqlite.hasRoom]);
      beyond, the program computes with rounded doubles, the engine refuses a
      LIMIT or OFFSET from 2^63 on and runs out of ids at 2^63 - 1, and the
      statements about replies carry the range as a hypothesis.  [-0] and [0]
      are both [Num 0] (they compare alike and are bound alike).
    - The storage engine and the schema validator are libraries, not code of
      this repository.  What the handlers rely on is modelled in [Module
      Sqlite] and in [validate]; what the engine is free to choose (the order
      of an unordered scan, the coercion of a TEXT operand compared with the
      INTEGER column) is a field of [Sqlite.Engine], and what the validator's
      URI format accepts is a parameter of [validate]. *)

From stdpp Require Import base numbers option list sorting gmap strings.
From Stdlib Require Import Ascii String ZArith Lia Permutation.
From Stdlib Require OrderedTypeEx.

Local Open Scope Z_scope.

(** ** JavaScript values and built-ins used by the handlers *)

Module Js.

(** The result of [parseInt] and of the arithmetic on it. *)
Inductive Number :=
| NaN
| Num (z : Z).

Definition isNaN (n : Number) : bool :=
  match n with NaN => true | Num _ => false end.

Definition sub (a b : Number) : Number :=
  match a, b with Num x, Num y => Num (x - y) | _, _ => NaN end.

Definition mul (a b : Number) : Number :=
  match a, b with Num x, Num y => Num (x * y) | _, _ => NaN end.

(** [a < b]; false as soon as one side is [NaN]. *)
Definition lt (a b : Number) : bool :=
  match a, b with Num x, Num y => x <? y | _, _ => false end.

Definition code (c : ascii) : N := N_of_ascii c.

Definition isDigit (c : ascii) : bool := ((48 <=? code c) && (code c <=? 57))%N.
Definition isUpper (c : ascii) : bool := ((65 <=? code c) && (code c <=? 90))%N.
Definition isLower (c : ascii) : bool := ((97 <=? code c) && (code c <=? 122))%N.

(** The character class [[a-zA-Z0-9]]. *)
Definition isAlnum (c : ascii) : bool := isDigit c || isUpper c || isLower c.

Definition upperChar (c : ascii) : ascii :=
  if isLower c then ascii_of_N (code c - 32) else c.

Definition lowerChar (c : ascii) : ascii :=
  if isUpper c then ascii_of_N (code c + 32) else c.

(** [String.prototype.toUpperCase] and [toLowerCase] on the ASCII letters,
    the only letters the handler ever applies them to. *)
Fixpoint toUpperCase (s : string) : string :=
  match s with
  | EmptyString => EmptyString
  | String c r => String (upperChar c) (toUpperCase r)
  end.

Fixpoint toLowerCase (s : string) : string :=
  match s with
  | EmptyString => EmptyString
  | String c r => String (lowerChar c) (toLowerCase r)
  end.

(** [s.split(sep)] for a one-character separator: every occurrence of the
    separator cuts, and the empty string gives one empty part. *)
Fixpoint split (sep : ascii) (s : string) : list string :=
  match s with
  | EmptyString => [EmptyString]
  | String c r =>
      if Ascii.eqb c sep then EmptyString :: split sep r
      else match split sep r with
           | [] => [String c EmptyString]
           | p :: ps => String c p :: ps
           end
  end.

(** [Array.prototype.includes] on an array of strings. *)
Definition includes (xs : list string) (x : string) : bool :=
  existsb (String.eqb x) xs.

(** [String.prototype.includes]: [needle] occurs somewhere in [hay]. *)
Fixpoint strIncludes (hay needle : string) : bool :=
  String.prefix needle hay ||
  match hay with
  | EmptyString => false
  | String _ r => strIncludes r needle
  end.

(** [Array.prototype.join]. *)
Definition join (sep : string) (xs : list string) : string := String.concat sep xs.

(** Leading white space as [parseInt] skips it: the ASCII blanks and line
    terminators, and the UTF-8 encodings of U+00A0, U+1680, U+2000..U+200A,
    U+2028, U+2029, U+202F, U+205F, U+3000 and U+FEFF. *)
Fixpoint skipWhiteSpace (s : string) : string :=
  match s with
  | String c1 r1 =>
      if ((code c1 =? 9) || (code c1 =? 10) || (code c1 =? 11) || (code c1 =? 12)
          || (code c1 =? 13) || (code c1 =? 32))%N
      then skipWhiteSpace r1
      else
        match r1 with
        | String c2 r2 =>
            if ((code c1 =? 194) && (code c2 =? 160))%N then skipWhiteSpace r2
            else
              match r2 with
              | String c3 r3 =>
                  let n1 := code c1 in
                  let n2 := code c2 in
                  let n3 := code c3 in
                  if ((n1 =? 225) && (n2 =? 154) && (n3 =? 128)
                      || (n1 =? 226) && (n2 =? 128)
                         && ((128 <=? n3) && (n3 <=? 138) || (n3 =? 168) || (n3 =? 169)
                             || (n3 =? 175))
                      || (n1 =? 226) && (n2 =? 129) && (n3 =? 159)
                      || (n1 =? 227) && (n2 =? 128) && (n3 =? 128)
                      || (n1 =? 239) && (n2 =? 187) && (n3 =? 191))%N
                  then skipWhiteSpace r3
                  else s
              | EmptyString => s
              end
        | EmptyString => s
        end
  | EmptyString => s
  end.

(** The value of a digit in a radix up to 36. *)
Definition digitValue (c : ascii) : option Z :=
  if isDigit c then Some (Z.of_N (code c) - 48)
  else if isLower c then Some (Z.of_N (code c) - 87)
  else if isUpper c then Some (Z.of_N (code c) - 55)
  else None.

(** The longest prefix of digits of the radix, read as a number; [acc] is
    [None] until a first digit has been read. *)
Fixpoint parseDigits (radix : Z) (s : string) (acc : option Z) : option Z :=
  match s with
  | EmptyString => acc
  | String c r =>
      match digitValue c with
      | Some d =>
          if d <? radix
          then parseDigits radix r (Some (radix * default 0 acc + d))
          else acc
      | None => acc
      end
  end.

(** [parseInt(s)] with no radix argument: white space, a sign, an
    optional [0x] prefix selecting base 16, then as many digits as there
    are; [NaN] when there is none. *)
Definition parseInt (s : string) : Number :=
  let s1 := skipWhiteSpace s in
  let '(sign, s2) :=
    match s1 with
    | String "-"%char r => (-1, r)
    | String "+"%char r => (1, r)
    | _ => (1, s1)
    end in
  let '(radix, s3) :=
    match s2 with
    | String "0"%char (String "x"%char r) => (16, r)
    | String "0"%char (String "X"%char r) => (16, r)
    | _ => (10, s2)
    end in
  match parseDigits radix s3 None with
  | Some v => Num (sign * v)
  | None => NaN
  end.

(** The longest prefix of [s] in the class [[a-zA-Z0-9]], and what follows. *)
Fixpoint spanAlnum (s : string) : string * string :=
  match s with
  | EmptyString => (EmptyString, EmptyString)
  | String c r =>
      if isAlnum c
      then let '(p, q) := spanAlnum r in (String c p, q)
      else (EmptyString, s)
  end.

(** The alternation [(asc|desc)] under the flag [i]. *)
Definition isDirection (d : string) : bool :=
  String.eqb (toLowerCase d) "asc" || String.eqb (toLowerCase d) "desc".

(** [s.match(/^([a-zA-Z0-9]+)_(asc|desc)$/i)]: the two capture groups, or
    [None] for [null].  The class excludes ['_'], so the greedy field group
    can only end at the first character outside the class. *)
Definition matchSort (s : string) : option (string * string) :=
  match spanAlnum s with
  | (String c p, String "_"%char d) =>
      if isDirection d then Some (String c p, d) else None
  | _ => None
  end.

(** A value read from a parsed JSON document ([undefined] for a property
    that is not there; arrays and objects, never inspected, are
    [JComposite]). *)
Inductive Value :=
| JUndefined
| JNull
| JBool (b : bool)
| JNum (z : Z)
| JStr (s : string)
| JComposite.

(** ToBoolean. *)
Definition truthy (v : Value) : bool :=
  match v with
  | JUndefined | JNull => false
  | JBool b => b
  | JNum z => negb (z =? 0)
  | JStr s => negb (String.eqb s "")
  | JComposite => true
  end.

(** [a || b]. *)
Definition or (a b : Value) : Value := if truthy a then a else b.

(** [obj.key] on a parsed JSON object. *)
Definition get (obj : gmap string Value) (key : string) : Value :=
  default JUndefined (obj !! key).

(** A number on which the arithmetic of the embedding is that of the
    program: [NaN], or an integer below 2^53 in magnitude, where every integer
    is a double. *)
Definition inRange (n : Number) : Prop :=
  match n with
  | NaN => True
  | Num z => Z.abs z < 2 ^ 53
  end.

(** [String.prototype.endsWith]. *)
Fixpoint endsWith (s suffix : string) : bool :=
  String.eqb s suffix ||
  match s with
  | EmptyString => false
  | String _ r => endsWith r suffix
  end.

End Js.

(** ** The storage engine: one table, parameterised statements *)

Module Sqlite.

(** The storage classes that occur in the table. *)
Inductive Value :=
| Null
| Integer (z : Z)
| Text (s : string).

(** A row of [demons]: [id INTEGER PRIMARY KEY AUTOINCREMENT],
    [name TEXT NOT NULL UNIQUE], and four nullable TEXT columns
    ([None] is NULL). *)
Record Row := {
  id : Z;
  name : string;
  description : option string;
  race : option string;
  alignment : option string;
  imageUrl : option string
}.

Definition textOrNull (o : option string) : Value :=
  match o with Some s => Text s | None => Null end.

(** Column names resolve without regard to case; an unknown name makes
    the statement fail. *)
Definition column (c : string) : option (Row -> Value) :=
  let k := Js.toLowerCase c in
  if String.eqb k "id" then Some (fun r => Integer (id r))
  else if String.eqb k "name" then Some (fun r => Text (name r))
  else if String.eqb k "description" then Some (fun r => textOrNull (description r))
  else if String.eqb k "race" then Some (fun r => textOrNull (race r))
  else if String.eqb k "alignment" then Some (fun r => textOrNull (alignment r))
  else if String.eqb k "imageurl" then Some (fun r => textOrNull (imageUrl r))
  else None.

(** The sort order of values: NULL first, then numbers, then text, text by
    its bytes. *)
Definition compare (a b : Value) : comparison :=
  match a, b with
  | Null, Null => Eq
  | Null, _ => Lt
  | _, Null => Gt
  | Integer x, Integer y => x ?= y
  | Integer _, Text _ => Lt
  | Text _, Integer _ => Gt
  | Text s, Text t => String.compare s t
  end.

Definition leb (a b : Value) : bool :=
  match compare a b with Gt => false | _ => true end.

(** What the engine may choose: the order in which a scan without
    ORDER BY visits the rows, and the integer a TEXT operand stands for
    when it is compared with the INTEGER column (numeric affinity), if
    any. *)
Record Engine := {
  scan : list Row -> list Row;
  integerOfText : string -> option Z
}.

(** [column = ?] with a TEXT parameter bound: never true on NULL, byte
    equality on text, numeric comparison after coercion on an integer. *)
Definition equalsText (E : Engine) (cell : Value) (v : string) : bool :=
  match cell with
  | Null => false
  | Text s => String.eqb s v
  | Integer z =>
      match integerOfText E v with
      | Some n => z =? n
      | None => false
      end
  end.

(** [SELECT * FROM demons [WHERE c = ?] [ORDER BY c dir] LIMIT ? OFFSET ?]:
    the identifiers are text of the statement, the values are bound. *)
Record Select := {
  whereEq : option (string * string);
  orderBy : option (string * string);
  limit : Z;
  offset : Z
}.

(** The statement as text. *)
Definition sql (q : Select) : string :=
  "SELECT * FROM demons"
  +:+ match whereEq q with
      | Some (c, _) => " WHERE " +:+ Js.join " AND " [c +:+ " = ?"]
      | None => ""
      end
  +:+ match orderBy q with
      | Some (c, d) => " ORDER BY " +:+ c +:+ " " +:+ d
      | None => ""
      end
  +:+ " LIMIT ? OFFSET ?".

(** The order ORDER BY asks for on a key. *)
Definition ordered (key : Row -> Value) (desc : bool) : relation Row :=
  fun r1 r2 =>
    if desc then leb (key r2) (key r1) = true else leb (key r1) (key r2) = true.

#[global] Instance ordered_dec key desc : RelDecision (ordered key desc).
Proof. intros r1 r2. unfold ordered. destruct desc; apply _. Defined.

Definition direction (d : string) : option bool :=
  if String.eqb d "ASC" then Some false
  else if String.eqb d "DESC" then Some true
  else None.

Definition applyWhere (E : Engine) (w : option (string * string)) (rs : list Row)
  : option (list Row) :=
  match w with
  | None => Some rs
  | Some (c, v) =>
      match column c with
      | Some key => Some (List.filter (fun r => equalsText E (key r) v) rs)
      | None => None
      end
  end.

Definition applyOrder (o : option (string * string)) (rs : list Row)
  : option (list Row) :=
  match o with
  | None => Some rs
  | Some (c, d) =>
      match column c, direction d with
      | Some key, Some desc => Some (merge_sort (ordered key desc) rs)
      | _, _ => None
      end
  end.

(** LIMIT and OFFSET: a negative offset skips nothing, a negative limit
    does not cut. *)
Definition window (lim off : Z) (rs : list Row) : list Row :=
  let rest := drop (Z.to_nat off) rs in
  if lim <? 0 then rest else take (Z.to_nat lim) rest.

(** The rows of the statement before LIMIT and OFFSET apply; [None] when
    the statement is in error. *)
Definition resultSet (E : Engine) (q : Select) (t : list Row) : option (list Row) :=
  match applyWhere E (whereEq q) (scan E t) with
  | Some rs => applyOrder (orderBy q) rs
  | None => None
  end.

(** [db.all(sql, params)], for a LIMIT and an OFFSET bound as integers
    (which they are on the requests of [Server.inRange]; a bound number from
    2^63 on makes the real statement fail). *)
Definition all (E : Engine) (q : Select) (t : list Row) : option (list Row) :=
  match resultSet E q t with
  | Some rs => Some (window (limit q) (offset q) rs)
  | None => None
  end.

(** The table with its AUTOINCREMENT counter ([sqlite_sequence]: the
    largest id handed out so far). *)
Record Table := {
  rows : list Row;
  sequence : Z
}.

Definition empty : Table := {| rows := []; sequence := 0 |}.

Definition maxId (rs : list Row) : Z :=
  fold_right (fun r m => Z.max (id r) m) 0 rs.

Definition hasName (n : string) (rs : list Row) : bool :=
  existsb (fun r => String.eqb (name r) n) rs.

(** What [stmt.run] hands to its callback: [this.lastID], or an error with
    its message. *)
Inductive Outcome :=
| Done (lastID : Z)
| Failed (message : string).

(** [INSERT INTO demons (name, description, race, alignment, imageUrl)
    VALUES (?, ?, ?, ?, ?)] with five values bound ([None] binds NULL).  A
    failed statement leaves the table and its counter as they were.  Ids are
    integers without a bound: the embedding is that of the engine while the
    table has room ([hasRoom]); the engine itself has no id left after
    2^63 - 1. *)
Definition insert (n d r a i : option string) (t : Table) : Table * Outcome :=
  match n with
  | None => (t, Failed "SQLITE_CONSTRAINT: NOT NULL constraint failed: demons.name")
  | Some nm =>
      if hasName nm (rows t)
      then (t, Failed "SQLITE_CONSTRAINT: UNIQUE constraint failed: demons.name")
      else
        let k := Z.max (sequence t) (maxId (rows t)) + 1 in
        ({| rows := rows t ++ [ {| id := k; name := nm; description := d; race := r;
                                   alignment := a; imageUrl := i |} ];
            sequence := k |},
         Done k)
  end.

Fixpoint allDigits (s : string) : bool :=
  match s with
  | EmptyString => true
  | String c r => Js.isDigit c && allDigits r
  end.

(** Text that is a plain decimal integer, sign included, as its number. *)
Definition decimal (s : string) : option Z :=
  let '(sign, ds) :=
    match s with
    | String "-"%char r => (-1, r)
    | String "+"%char r => (1, r)
    | _ => (1, s)
    end in
  if allDigits ds
  then option_map (Z.mul sign) (Js.parseDigits 10 ds None)
  else None.

(** An engine that scans the table by ascending rowid and reads plain
    decimal text as its number. *)
Definition forward : Engine := {| scan := fun rs => rs; integerOfText := decimal |}.

(** The same engine scanning backwards (what
    [PRAGMA reverse_unordered_selects] turns on). *)
Definition backward : Engine := {| scan := @rev Row; integerOfText := decimal |}.

(** [INSERT OR IGNORE INTO demons (...) VALUES (?, ?, ?, ?, ?)]: a row that
    breaks NOT NULL or UNIQUE is skipped without an error.  Whether a skipped
    row still uses up a value of the counter is the engine's business
    ([bump]). *)
Definition insertOrIgnore (bump : bool) (n d r a i : option string) (t : Table) : Table :=
  match insert n d r a i t with
  | (t', Done _) => t'
  | (_, Failed _) =>
      if bump
      then {| rows := rows t; sequence := Z.max (sequence t) (maxId (rows t)) + 1 |}
      else t
  end.

(** A table whose next id is still a number the program handles exactly:
    the counter and the ids are below 2^53 (far below the engine's last id,
    2^63 - 1), so that [this.lastID] is the id that was stored. *)
Definition hasRoom (t : Table) : Prop :=
  Z.max (sequence t) (maxId (rows t)) < 2 ^ 53.

(** What the schema promises of a table: names are pairwise distinct
    (UNIQUE), ids are positive and come in strictly increasing order along the
    rowid scan (PRIMARY KEY), and none is above the counter (AUTOINCREMENT). *)
Definition consistent (t : Table) : Prop :=
  NoDup (map name (rows t))
  /\ StronglySorted (fun r1 r2 => id r1 < id r2) (rows t)
  /\ Forall (fun r => 0 < id r <= sequence t) (rows t).

End Sqlite.

(** ** The handlers of [server.js] *)

Module Server.

(** [request.query] of the list route: the four parameters the handler
    reads, each absent ([None]) or a string.  [sort], [page] and [pageSize]
    are the parameters [$sort], [$page] and [$pageSize]. *)
Record Query := {
  filter : option string;
  sort : option string;
  page : option string;
  pageSize : option string
}.

Definition allowedFilters : list string := ["id"; "name"; "race"; "alignment"].

Definition allowedSorts : list string := ["id"; "name"; "race"; "alignment"; "imageUrl"].

(** A string in a condition: empty is false. *)
Definition nonEmpty (s : string) : bool := negb (String.eqb s "").

(** Step 1, filtering: the one clause [key = ?] with its bound value, if
    the filter survives the two guards. *)
Definition whereClause (filter : option string) : option (string * string) :=
  match filter with
  | Some f =>
      if nonEmpty f then
        match Js.split ":" f with
        | [key; value] =>
            if Js.includes allowedFilters key then Some (key, value) else None
        | _ => None
        end
      else None
  | None => None
  end.

(** Step 2, sorting: the ORDER BY clause.  The default sits in the [else]
    of [if ($sort)], so it is reached only when the parameter is absent or
    empty. *)
Definition orderClause (sort : option string) : option (string * string) :=
  match sort with
  | Some s =>
      if nonEmpty s then
        match Js.matchSort s with
        | Some (col, dir) =>
            if Js.includes allowedSorts col then Some (col, Js.toUpperCase dir) else None
        | None => None
        end
      else Some ("id", "ASC")
  | None => Some ("id", "ASC")
  end.

(** [parseInt] of a parameter that defaults to the number [dflt]. *)
Definition parseParam (dflt : Z) (p : option string) : Js.Number :=
  match p with
  | Some s => Js.parseInt s
  | None => Js.Num dflt
  end.

(** [bad ? dflt : n]. *)
Definition orElse (bad : bool) (dflt : Z) (n : Js.Number) : Z :=
  if bad then dflt else match n with Js.Num z => z | Js.NaN => dflt end.

(** Step 3, pagination. *)
Definition limitOf (q : Query) : Js.Number := parseParam 10 (pageSize q).

Definition offsetOf (q : Query) : Js.Number :=
  Js.mul (Js.sub (parseParam 1 (page q)) (Js.Num 1)) (limitOf q).

Definition safeLimit (q : Query) : Z :=
  let limit := limitOf q in
  orElse (Js.isNaN limit || Js.lt limit (Js.Num 1)) 10 limit.

Definition safeOffset (q : Query) : Z :=
  let offset := offsetOf q in
  orElse (Js.isNaN offset || Js.lt offset (Js.Num 0)) 0 offset.

(** The statement the list handler hands to [db.all]. *)
Definition statement (q : Query) : Sqlite.Select :=
  {| Sqlite.whereEq := whereClause (filter q);
     Sqlite.orderBy := orderClause (sort q);
     Sqlite.limit := safeLimit q;
     Sqlite.offset := safeOffset q |}.

Inductive ListReply :=
| Rows (rs : list Sqlite.Row)
| ListError.

(** [GET /api/v1/demons]. *)
Definition listDemons (E : Sqlite.Engine) (q : Query) (t : Sqlite.Table) : ListReply :=
  match Sqlite.all E (statement q) (Sqlite.rows t) with
  | Some rs => Rows rs
  | None => ListError
  end.

(** The rows of the request before its page is cut out. *)
Definition listAll (E : Sqlite.Engine) (q : Query) (t : Sqlite.Table)
  : option (list Sqlite.Row) :=
  Sqlite.resultSet E (statement q) (Sqlite.rows t).

(** *** The create route *)

(** The JSON schema keywords [demonSchema] uses on a string property. *)
Record StringSchema := {
  minLength : option nat;
  maxLength : option nat;
  enum : option (list string);
  format : option string
}.

Record BodySchema := {
  required : list string;
  properties : list (string * StringSchema)
}.

Definition anyString : StringSchema :=
  {| minLength := None; maxLength := None; enum := None; format := None |}.

Definition alignments : list string :=
  ["Law"; "Neutral"; "Chaos"; "unknown"; "Light-Law"; "Dark-Chaos"; "Neutral-Neutral"].

Definition demonSchema : BodySchema :=
  {| required := ["name"; "race"; "alignment"];
     properties :=
       [ ("name", {| minLength := Some 1%nat; maxLength := Some 100%nat;
                     enum := None; format := None |});
         ("description", {| minLength := None; maxLength := Some 500%nat;
                            enum := None; format := None |});
         ("race", {| minLength := None; maxLength := Some 50%nat;
                     enum := None; format := None |});
         ("alignment", {| minLength := None; maxLength := None;
                          enum := Some alignments; format := None |});
         ("imageUrl", {| minLength := None; maxLength := None;
                         enum := None; format := Some "uri" |}) ] |}.

(** The length the validator measures: code points, that is the bytes
    that do not continue a UTF-8 sequence. *)
Fixpoint codePoints (s : string) : nat :=
  match s with
  | EmptyString => 0%nat
  | String c r =>
      if ((128 <=? Js.code c) && (Js.code c <=? 191))%N
      then codePoints r else S (codePoints r)
  end.

(** The request body after the validator's type coercion: an object
    whose listed properties, where present, are strings. *)
Definition validString (formatOk : string -> string -> bool) (sch : StringSchema)
  (v : string) : bool :=
  match minLength sch with Some n => (n <=? codePoints v)%nat | None => true end
  && match maxLength sch with Some n => (codePoints v <=? n)%nat | None => true end
  && match enum sch with Some vs => Js.includes vs v | None => true end
  && match format sch with Some f => formatOk f v | None => true end.

Definition validate (formatOk : string -> string -> bool) (schema : BodySchema)
  (body : gmap string string) : bool :=
  forallb (fun k => bool_decide (is_Some (body !! k))) (required schema)
  && forallb (fun '(k, sch) =>
                match body !! k with
                | Some v => validString formatOk sch v
                | None => true
                end) (properties schema).

(** The body of a 201 reply, [undefined] properties being [None]. *)
Record Demon := {
  id : Z;
  name : option string;
  description : option string;
  race : option string;
  alignment : option string;
  imageUrl : option string
}.

Inductive CreateReply :=
| Created (d : Demon)
| BadRequest
| Conflict
| InternalServerError.

Definition status (r : CreateReply) : Z :=
  match r with
  | Created _ => 201
  | BadRequest => 400
  | Conflict => 409
  | InternalServerError => 500
  end.

(** The handler proper, run on a body that passed validation. *)
Definition createHandler (body : gmap string string) (t : Sqlite.Table)
  : Sqlite.Table * CreateReply :=
  let name := body !! "name" in
  let description := body !! "description" in
  let race := body !! "race" in
  let alignment := body !! "alignment" in
  let imageUrl := body !! "imageUrl" in
  match Sqlite.insert name description race alignment imageUrl t with
  | (t', Sqlite.Failed message) =>
      if Js.strIncludes message "UNIQUE constraint failed"
      then (t', Conflict)
      else (t', InternalServerError)
  | (t', Sqlite.Done lastID) =>
      (t', Created {| id := lastID; name := name; description := description;
                      race := race; alignment := alignment; imageUrl := imageUrl |})
  end.

(** [POST /api/v1/demons] with [{ schema: demonSchema }]: the body is
    validated first, and a body that fails never reaches the handler. *)
Definition createDemon (formatOk : string -> string -> bool)
  (body : gmap string string) (t : Sqlite.Table) : Sqlite.Table * CreateReply :=
  if validate formatOk demonSchema body then createHandler body t
  else (t, BadRequest).

(** A sequence of create requests served one after the other, with the
    replies in order. *)
Fixpoint createAll (formatOk : string -> string -> bool)
  (bodies : list (gmap string string)) (t : Sqlite.Table)
  : Sqlite.Table * list CreateReply :=
  match bodies with
  | [] => (t, [])
  | b :: bs =>
      let '(t1, r) := createDemon formatOk b t in
      let '(t2, rs) := createAll formatOk bs t1 in
      (t2, r :: rs)
  end.

(** The ids handed out in a sequence of replies, in order. *)
Fixpoint createdIds (rs : list CreateReply) : list Z :=
  match rs with
  | [] => []
  | Created d :: rs' => id d :: createdIds rs'
  | _ :: rs' => createdIds rs'
  end.

(** How a stored row reads back as a reply body. *)
Definition asDemon (r : Sqlite.Row) : Demon :=
  {| id := Sqlite.id r; name := Some (Sqlite.name r);
     description := Sqlite.description r; race := Sqlite.race r;
     alignment := Sqlite.alignment r; imageUrl := Sqlite.imageUrl r |}.

(** *** Seeding *)

(** The normalised image of a seed object. *)
Definition seedImage (demon : gmap string Js.Value) : Js.Value :=
  Js.or (Js.or (Js.get demon "image_source_url") (Js.get demon "img")) (Js.JStr "").

(** The five values [seedData] binds for one seed object, in the order
    name, description, race, alignment, imageUrl. *)
Definition seedParams (demon : gmap string Js.Value)
  : Js.Value * Js.Value * Js.Value * Js.Value * Js.Value :=
  let img := seedImage demon in
  let align := Js.get demon "alignment" in
  (Js.get demon "name", Js.get demon "description", Js.get demon "race", align, img).

(** The imageUrl that is stored for a seed object. *)
Definition seedImageUrl (demon : gmap string Js.Value) : Js.Value :=
  snd (seedParams demon).

(** A request whose page numbers the program handles exactly: the parsed
    [$page] and [$pageSize] and the offset formed from them are [NaN] or
    below 2^53 in magnitude.  On such a request the numbers of the embedding
    are the doubles of the handler, and the bound LIMIT and OFFSET are
    integers the engine accepts. *)
Definition inRange (q : Query) : Prop :=
  Js.inRange (parseParam 1 (page q))
  /\ Js.inRange (limitOf q)
  /\ Js.inRange (offsetOf q).

End Server.

(** ** The filter grammar as the specification words it *)

Module Spec.

(** "Parsed by splitting on the first colon": what precedes the first
    colon and what follows it, or the whole string alone when it has no
    colon. *)
Fixpoint splitFirst (sep : ascii) (s : string) : list string :=
  match s with
  | EmptyString => [EmptyString]
  | String c r =>
      if Ascii.eqb c sep then [EmptyString; r]
      else match splitFirst sep r with
           | p :: ps => String c p :: ps
           | [] => [String c EmptyString]
           end
  end.

(** The filter clause under that reading, with the allowlist of the
    handler. *)
Definition whereClause (filter : option string) : option (string * string) :=
  match filter with
  | Some f =>
      match splitFirst ":" f with
      | [key; value] =>
          if Js.includes Server.allowedFilters key then Some (key, value) else None
      | _ => None
      end
  | None => None
  end.

(** The list route with that filter clause and everything else as the
    handler does it. *)
Definition listDemons (E : Sqlite.Engine) (q : Server.Query) (t : Sqlite.Table)
  : Server.ListReply :=
  match Sqlite.all E {| Sqlite.whereEq := whereClause (Server.filter q);
                        Sqlite.orderBy := Server.orderClause (Server.sort q);
                        Sqlite.limit := Server.safeLimit q;
                        Sqlite.offset := Server.safeOffset q |} (Sqlite.rows t) with
  | Some rs => Server.Rows rs
  | None => Server.ListError
  end.

End Spec.

(** ** Sample data *)

Module Sample.

Definition demon (i : Z) (n : string) (r : option string) : Sqlite.Row :=
  {| Sqlite.id := i; Sqlite.name := n; Sqlite.description := None;
     Sqlite.race := r; Sqlite.alignment := Some "Neutral"; Sqlite.imageUrl := None |}.

Definition jackFrost : Sqlite.Row := demon 1 "Jack Frost" (Some "Fata").
Definition pixie : Sqlite.Row := demon 2 "Pixie" (Some "Fata").
Definition ab : Sqlite.Row := demon 3 "a:b" (Some "fata").
Definition angel : Sqlite.Row := demon 4 "Angel" None.
Definition fatale : Sqlite.Row := demon 5 "Lilim" (Some "Fatale").

Definition table : Sqlite.Table :=
  {| Sqlite.rows := [jackFrost; pixie; ab; angel; fatale]; Sqlite.sequence := 5 |}.

(** Twelve rows of one race, ids 1 to 12. *)
Definition dozen : Sqlite.Table :=
  {| Sqlite.rows :=
       map (fun i => demon (Z.of_nat i) (String (ascii_of_nat (64 + i)) "") (Some "Fata"))
           (seq 1 12);
     Sqlite.sequence := 12 |}.

Definition query (f s p ps : option string) : Server.Query :=
  {| Server.filter := f; Server.sort := s; Server.page := p; Server.pageSize := ps |}.

Definition ids (r : Server.ListReply) : list Z :=
  match r with
  | Server.Rows rs => map Sqlite.id rs
  | Server.ListError => []
  end.

(** A create body with the three required properties. *)
Definition body (n r a : string) : gmap string string :=
  <["name" := n]> (<["race" := r]> (<["alignment" := a]> ∅)).

(** A format check that accepts everything. *)
Definition anyFormat : string -> string -> bool := fun _ _ => true.

End Sample.

(** ** Start-up: [initDb] and [seedData] *)

Module Seed.

(** What [JSON.parse(fs.readFileSync(...))] gives for a seed file: an
    exception, a value that is not an array, or an array.  An element of the
    array is [None] when it is [null] (reading a property of it throws) and
    otherwise the object with the properties it has (a number or a string
    has none of the five). *)
Inductive Parsed :=
| Unparsable
| NotAnArray
| Items (items : list (option (gmap string Js.Value))).

(** The seeds directory: [None] when it does not exist, otherwise its
    entries in the order [readdirSync] lists them. *)
Definition Directory : Type := option (list (string * Parsed)).

(** A value bound to a TEXT column: a string is stored as it is, [null] and
    [undefined] as NULL; how any other value ends up as text is the driver's
    and the engine's business ([render]). *)
Definition stored (render : Js.Value -> option string) (v : Js.Value) : option string :=
  match v with
  | Js.JStr s => Some s
  | Js.JUndefined | Js.JNull => None
  | _ => render v
  end.

(** The body of [data.forEach]: one [stmt.run] with the five values of
    [Server.seedParams], bound by position.  That is what the driver does
    when the first argument, the name, is not an array or an object ([plain]):
    an array there is taken for the whole list of parameters and an object for
    named parameters. *)
Definition seedOne (render : Js.Value -> option string) (bump : bool)
  (demon : gmap string Js.Value) (t : Sqlite.Table) : Sqlite.Table :=
  let '(n, d, r, a, i) := Server.seedParams demon in
  Sqlite.insertOrIgnore bump (stored render n) (stored render d) (stored render r)
    (stored render a) (stored render i) t.

(** [data.forEach(...)] inside the [try]: a [null] element throws, which
    ends the file; the rows run before it stay. *)
Fixpoint seedItems (render : Js.Value -> option string) (bump : bool)
  (items : list (option (gmap string Js.Value))) (t : Sqlite.Table) : Sqlite.Table :=
  match items with
  | [] => t
  | Some demon :: rest => seedItems render bump rest (seedOne render bump demon t)
  | None :: _ => t
  end.

(** The [try] block for one file: an exception is logged and nothing else
    happens. *)
Definition seedFile (render : Js.Value -> option string) (bump : bool)
  (content : Parsed) (t : Sqlite.Table) : Sqlite.Table :=
  match content with
  | Items items => seedItems render bump items t
  | Unparsable | NotAnArray => t
  end.

Definition isJson (entry : string * Parsed) : bool := Js.endsWith (fst entry) ".json".

(** [seedData]. *)
Definition seedData (render : Js.Value -> option string) (bump : bool)
  (dir : Directory) (t : Sqlite.Table) : Sqlite.Table :=
  match dir with
  | None => t
  | Some files =>
      fold_left (fun acc entry => seedFile render bump (snd entry) acc)
                (List.filter isJson files) t
  end.

(** [initDb]: [CREATE TABLE IF NOT EXISTS] keeps the table of an existing
    database file and starts an empty one otherwise; then the seeds are
    loaded. *)
Definition initDb (render : Js.Value -> option string) (bump : bool)
  (dir : Directory) (db : option Sqlite.Table) : Sqlite.Table :=
  seedData render bump dir (default Sqlite.empty db).

(** The seed objects that reach [stmt.run], in order: in each [.json] file
    that parses to an array, those before the first [null]. *)
Fixpoint reached (items : list (option (gmap string Js.Value)))
  : list (gmap string Js.Value) :=
  match items with
  | Some demon :: rest => demon :: reached rest
  | _ => []
  end.

Definition queue (dir : Directory) : list (gmap string Js.Value) :=
  match dir with
  | None => []
  | Some files =>
      flat_map (fun entry => match snd entry with
                             | Items items => reached items
                             | _ => []
                             end) (List.filter isJson files)
  end.

(** A seed object whose name is not an array or an object. *)
Definition plain (demon : gmap string Js.Value) : Prop :=
  Js.get demon "name" <> Js.JComposite.

(** The row a seed object is stored as under the id [k]; there is none
    when its name is stored as NULL. *)
Definition rowOf (render : Js.Value -> option string) (k : Z)
  (demon : gmap string Js.Value) : option Sqlite.Row :=
  match stored render (Js.get demon "name") with
  | Some nm =>
      Some {| Sqlite.id := k; Sqlite.name := nm;
              Sqlite.description := stored render (Js.get demon "description");
              Sqlite.race := stored render (Js.get demon "race");
              Sqlite.alignment := stored render (Js.get demon "alignment");
              Sqlite.imageUrl := stored render (Server.seedImageUrl demon) |}
  | None => None
  end.

(** A seed object whose insert would be skipped on these rows: no name, or
    a name that is taken. *)
Definition covered (render : Js.Value -> option string) (rs : list Sqlite.Row)
  (demon : gmap string Js.Value) : Prop :=
  match stored render (Js.get demon "name") with
  | Some nm => Sqlite.hasName nm rs = true
  | None => True
  end.

End Seed.

(** ** The unversioned routes of the earlier server *)

Module Legacy.

(** [GET /demons]: [SELECT * FROM demons ORDER BY id] with nothing bound;
    the order defaults to ascending and there is no LIMIT. *)
Definition listDemons (E : Sqlite.Engine) (t : Sqlite.Table) : Server.ListReply :=
  match Sqlite.all E {| Sqlite.whereEq := None; Sqlite.orderBy := Some ("id", "ASC");
                        Sqlite.limit := -1; Sqlite.offset := 0 |} (Sqlite.rows t) with
  | Some rs => Server.Rows rs
  | None => Server.ListError
  end.

(** [POST /demons] is the handler of [POST /api/v1/demons] under another
    path. *)
Definition createDemon := Server.createDemon.

End Legacy.

(** ** Facts about the built-ins *)

Section JsFacts.

Lemma includes_elem_of (xs : list string) (x : string) :
  Js.includes xs x = true <-> x ∈ xs.
Proof.
  unfold Js.includes. rewrite existsb_exists. split.
  - intros (y & Hin & Heq). apply String.eqb_eq in Heq. subst y.
    now apply list_elem_of_In.
  - intros Hin. exists x. split; [now apply list_elem_of_In | apply String.eqb_refl].
Qed.

Lemma includes_false (xs : list string) (x : string) :
  Js.includes xs x = false <-> x ∉ xs.
Proof.
  rewrite <- includes_elem_of. destruct (Js.includes xs x); split; intro H;
    try reflexivity; try discriminate; exfalso; now apply H.
Qed.

Lemma upper_of_lower (c : ascii) : Js.upperChar (Js.lowerChar c) = Js.upperChar c.
Proof. destruct c as [[] [] [] [] [] [] [] []]; reflexivity. Qed.

Lemma toUpperCase_toLowerCase (s : string) :
  Js.toUpperCase (Js.toLowerCase s) = Js.toUpperCase s.
Proof.
  induction s as [|c r IH]; simpl; [reflexivity|].
  now rewrite upper_of_lower, IH.
Qed.

(** A matched direction is inserted into the statement as ASC or DESC. *)
Lemma direction_upper (d : string) :
  Js.isDirection d = true ->
  Js.toUpperCase d = "ASC" \/ Js.toUpperCase d = "DESC".
Proof.
  unfold Js.isDirection. intros H. apply orb_prop in H.
  rewrite <- toUpperCase_toLowerCase.
  destruct H as [H|H]; apply String.eqb_eq in H; rewrite H; [left|right]; reflexivity.
Qed.

Lemma matchSort_direction (s col dir : string) :
  Js.matchSort s = Some (col, dir) -> Js.isDirection dir = true.
Proof.
  unfold Js.matchSort. destruct (Js.spanAlnum s) as [p q].
  destruct p as [|c p]; [discriminate|].
  destruct q as [|u d]; [discriminate|].
  destruct (Ascii.eqb_spec u "_"%char) as [->|Hne].
  - destruct (Js.isDirection d) eqn:Hd; [|discriminate]. now intros [= _ <-].
  - destruct u as [[] [] [] [] [] [] [] []]; try discriminate. now contradiction Hne.
Qed.

(** [split] always yields at least one part. *)
Lemma split_nonempty (sep : ascii) (s : string) : Js.split sep s <> [].
Proof.
  induction s as [|c r IH]; simpl; [discriminate|].
  destruct (Ascii.eqb c sep); [discriminate|].
  destruct (Js.split sep r); [contradiction|discriminate].
Qed.

(** [parseInt] reads a leading integer and stops at the first character
    that is not a digit. *)
Example parseInt_samples :
  Js.parseInt "2" = Js.Num 2 /\ Js.parseInt " 12px" = Js.Num 12
  /\ Js.parseInt "-5" = Js.Num (-5) /\ Js.parseInt "0x1f" = Js.Num 31
  /\ Js.parseInt "two" = Js.NaN /\ Js.parseInt "" = Js.NaN.
Proof. repeat split. Qed.

Example matchSort_samples :
  Js.matchSort "name_asc" = Some ("name", "asc")
  /\ Js.matchSort "id_DESC" = Some ("id", "DESC")
  /\ Js.matchSort "name_sideways" = None
  /\ Js.matchSort "image_url_asc" = None
  /\ Js.matchSort "_asc" = None.
Proof. repeat split. Qed.

Example split_samples :
  Js.split ":" "race:Fata" = ["race"; "Fata"]
  /\ Js.split ":" "race" = ["race"]
  /\ Js.split ":" "race:" = ["race"; ""]
  /\ Js.split ":" "" = [""].
Proof. repeat split. Qed.

End JsFacts.

(** ** Facts about the engine *)

Section SqliteFacts.

Import OrderedTypeEx.

Lemma text_le_iff (s t : string) :
  String.compare s t <> Gt <-> String_as_OT.lt s t \/ s = t.
Proof.
  rewrite <- String_as_OT.cmp_lt, <- String_as_OT.cmp_eq.
  unfold String_as_OT.cmp. destruct (String.compare s t); split; intro H;
    try (now left); try (now right); try discriminate.
  destruct H; discriminate.
Qed.

Lemma text_le_trans (s t u : string) :
  String.compare s t <> Gt -> String.compare t u <> Gt -> String.compare s u <> Gt.
Proof.
  rewrite !text_le_iff. intros [H1| ->] [H2| ->]; auto.
  left. eapply String_as_OT.lt_trans; eassumption.
Qed.

Lemma leb_spec (a b : Sqlite.Value) :
  Sqlite.leb a b = true <-> Sqlite.compare a b <> Gt.
Proof.
  unfold Sqlite.leb. destruct (Sqlite.compare a b); split; intro H;
    try reflexivity; try discriminate; contradiction.
Qed.

Lemma leb_total (a b : Sqlite.Value) :
  Sqlite.leb a b = true \/ Sqlite.leb b a = true.
Proof.
  rewrite !leb_spec. destruct a as [|x|s], b as [|y|t]; simpl;
    try (left; discriminate); try (right; discriminate).
  - rewrite (Z.compare_antisym x y). destruct (x ?= y); simpl;
      [left|left|right]; discriminate.
  - rewrite (String.compare_antisym s t). destruct (String.compare t s); simpl;
      [left|right|left]; discriminate.
Qed.

Lemma leb_trans (a b c : Sqlite.Value) :
  Sqlite.leb a b = true -> Sqlite.leb b c = true -> Sqlite.leb a c = true.
Proof.
  rewrite !leb_spec. destruct a as [|x|s], b as [|y|t], c as [|z|u]; simpl;
    try discriminate; try contradiction; try (intros; discriminate).
  - rewrite !Z.compare_le_iff. lia.
  - apply text_le_trans.
Qed.

#[local] Instance ordered_total key desc : Total (Sqlite.ordered key desc).
Proof. intros r1 r2. unfold Sqlite.ordered. destruct desc; apply leb_total. Qed.

#[local] Instance ordered_transitive key desc : Transitive (Sqlite.ordered key desc).
Proof.
  intros r1 r2 r3. unfold Sqlite.ordered. destruct desc; intros H1 H2.
  - eapply leb_trans; eassumption.
  - eapply leb_trans; eassumption.
Qed.

Lemma maxId_ge (rs : list Sqlite.Row) :
  0 <= Sqlite.maxId rs /\ Forall (fun r => Sqlite.id r <= Sqlite.maxId rs) rs.
Proof.
  induction rs as [|r rs [IH0 IH]]; simpl; [split; [lia|constructor]|].
  split; [lia|]. constructor; [lia|].
  eapply Forall_impl; [exact IH|]. simpl. intros x Hx. lia.
Qed.

Lemma window_sublist (lim off : Z) (rs : list Sqlite.Row) :
  Sqlite.window lim off rs `sublist_of` rs.
Proof.
  unfold Sqlite.window. destruct (lim <? 0).
  - apply sublist_drop.
  - etransitivity; [apply sublist_take | apply sublist_drop].
Qed.

Lemma window_elem_of (lim off : Z) (rs : list Sqlite.Row) (r : Sqlite.Row) :
  r ∈ Sqlite.window lim off rs -> r ∈ rs.
Proof. intros H. eapply elem_of_sublist; [exact H|apply window_sublist]. Qed.

Lemma StronglySorted_take (R : relation Sqlite.Row) (n : nat) (rs : list Sqlite.Row) :
  StronglySorted R rs -> StronglySorted R (take n rs).
Proof. rewrite <- (take_drop n rs) at 1. apply StronglySorted_app_1_l. Qed.

Lemma StronglySorted_drop (R : relation Sqlite.Row) (n : nat) (rs : list Sqlite.Row) :
  StronglySorted R rs -> StronglySorted R (drop n rs).
Proof. rewrite <- (take_drop n rs) at 1. apply StronglySorted_app_1_r. Qed.

Lemma window_sorted (R : relation Sqlite.Row) (lim off : Z) (rs : list Sqlite.Row) :
  StronglySorted R rs -> StronglySorted R (Sqlite.window lim off rs).
Proof.
  intros H. unfold Sqlite.window. destruct (lim <? 0).
  - now apply StronglySorted_drop.
  - now apply StronglySorted_take, StronglySorted_drop.
Qed.

Lemma filter_Permutation_bool (f : Sqlite.Row -> bool) (l l' : list Sqlite.Row) :
  l ≡ₚ l' -> List.filter f l ≡ₚ List.filter f l'.
Proof.
  induction 1 as [|x l l' _ IH|x y l|l l' l'' _ IH1 _ IH2]; simpl.
  - reflexivity.
  - destruct (f x); [now constructor|exact IH].
  - destruct (f x), (f y); try reflexivity. apply perm_swap.
  - etransitivity; eassumption.
Qed.

(** ORDER BY returns the rows it was given, and in the order asked for. *)
Lemma applyOrder_Permutation o rs rs' :
  Sqlite.applyOrder o rs = Some rs' -> rs' ≡ₚ rs.
Proof.
  unfold Sqlite.applyOrder. destruct o as [[c d]|]; [|now intros [= <-]].
  destruct (Sqlite.column c) as [key|]; [|discriminate].
  destruct (Sqlite.direction d) as [desc|]; [|discriminate].
  intros [= <-]. apply merge_sort_Permutation.
Qed.

Lemma applyOrder_sorted c d key desc rs rs' :
  Sqlite.column c = Some key -> Sqlite.direction d = Some desc ->
  Sqlite.applyOrder (Some (c, d)) rs = Some rs' ->
  StronglySorted (Sqlite.ordered key desc) rs'.
Proof.
  unfold Sqlite.applyOrder. intros -> -> [= <-].
  apply StronglySorted_merge_sort; apply _.
Qed.

Lemma applyWhere_elem_of E c v key rs rs' (r : Sqlite.Row) :
  Sqlite.column c = Some key ->
  Sqlite.applyWhere E (Some (c, v)) rs = Some rs' ->
  r ∈ rs' <-> r ∈ rs /\ Sqlite.equalsText E (key r) v = true.
Proof.
  unfold Sqlite.applyWhere. intros -> [= <-].
  rewrite !list_elem_of_In. apply filter_In.
Qed.

End SqliteFacts.

(** ** Facts about the list handler *)

Section ListFacts.

Lemma whereClause_allowed (f : option string) (key v : string) :
  Server.whereClause f = Some (key, v) -> key ∈ Server.allowedFilters.
Proof.
  unfold Server.whereClause. destruct f as [f|]; [|discriminate].
  destruct (Server.nonEmpty f); [|discriminate].
  destruct (Js.split ":" f) as [|k [|v' [|]]]; try discriminate.
  destruct (Js.includes Server.allowedFilters k) eqn:Hk; [|discriminate].
  intros [= <- _]. now apply includes_elem_of.
Qed.

Lemma orderClause_shape (s : option string) (c d : string) :
  Server.orderClause s = Some (c, d) ->
  c ∈ Server.allowedSorts /\ (d = "ASC" \/ d = "DESC").
Proof.
  assert (Hdef : "id" ∈ Server.allowedSorts) by (apply includes_elem_of; reflexivity).
  unfold Server.orderClause. destruct s as [s|]; [|intros [= <- <-]; auto].
  destruct (Server.nonEmpty s); [|intros [= <- <-]; auto].
  destruct (Js.matchSort s) as [[col dir]|] eqn:Hm; [|discriminate].
  destruct (Js.includes Server.allowedSorts col) eqn:Hc; [|discriminate].
  intros [= <- <-]. split; [now apply includes_elem_of|].
  apply direction_upper. eapply matchSort_direction; eassumption.
Qed.

Lemma column_of_sort (c : string) :
  c ∈ Server.allowedSorts -> is_Some (Sqlite.column c).
Proof.
  unfold Server.allowedSorts. rewrite !elem_of_cons, elem_of_nil.
  intros [->|[->|[->|[->|[->|[]]]]]]; eexists; reflexivity.
Qed.

Lemma column_of_filter (c : string) :
  c ∈ Server.allowedFilters -> is_Some (Sqlite.column c).
Proof.
  unfold Server.allowedFilters. rewrite !elem_of_cons, elem_of_nil.
  intros [->|[->|[->|[->|[]]]]]; eexists; reflexivity.
Qed.

Lemma direction_of_order (d : string) :
  d = "ASC" \/ d = "DESC" -> is_Some (Sqlite.direction d).
Proof. intros [->| ->]; eexists; reflexivity. Qed.

(** The statement the handler builds is never in error: every identifier
    in it went through an allowlist. *)
Lemma listAll_defined (E : Sqlite.Engine) (q : Server.Query) (t : Sqlite.Table) :
  exists rs, Server.listAll E q t = Some rs.
Proof.
  unfold Server.listAll, Sqlite.resultSet, Server.statement; simpl.
  destruct (Server.whereClause (Server.filter q)) as [[k v]|] eqn:Hw; simpl.
  - destruct (column_of_filter k (whereClause_allowed _ _ _ Hw)) as [key ->].
    destruct (Server.orderClause (Server.sort q)) as [[c d]|] eqn:Ho; simpl.
    + destruct (orderClause_shape _ _ _ Ho) as [Hc Hd].
      destruct (column_of_sort c Hc) as [key' ->].
      destruct (direction_of_order d Hd) as [desc ->]. eauto.
    + eauto.
  - destruct (Server.orderClause (Server.sort q)) as [[c d]|] eqn:Ho; simpl.
    + destruct (orderClause_shape _ _ _ Ho) as [Hc Hd].
      destruct (column_of_sort c Hc) as [key' ->].
      destruct (direction_of_order d Hd) as [desc ->]. eauto.
    + eauto.
Qed.

(** The reply is the page [safeLimit], [safeOffset] of the result set. *)
Lemma listDemons_window (E : Sqlite.Engine) (q : Server.Query) (t : Sqlite.Table)
  (rs : list Sqlite.Row) :
  Server.listAll E q t = Some rs ->
  Server.listDemons E q t
  = Server.Rows (Sqlite.window (Server.safeLimit q) (Server.safeOffset q) rs).
Proof.
  unfold Server.listAll, Server.listDemons, Sqlite.all. intros ->. reflexivity.
Qed.

(** The result set does not depend on the pagination parameters. *)
Lemma listAll_page (E : Sqlite.Engine) (f s p ps p' ps' : option string)
  (t : Sqlite.Table) :
  Server.listAll E (Sample.query f s p ps) t
  = Server.listAll E (Sample.query f s p' ps') t.
Proof. reflexivity. Qed.

Lemma StronglySorted_impl (R R' : relation Sqlite.Row) (rs : list Sqlite.Row) :
  (forall x y, R x y -> R' x y) -> StronglySorted R rs -> StronglySorted R' rs.
Proof.
  intros HR. induction 1 as [|x l _ IH Hx]; constructor; [exact IH|].
  eapply Forall_impl; [exact Hx|]. intros y. apply HR.
Qed.

(** A valid sort token on an allowlisted column sorts the reply. *)
Lemma listDemons_sorted (E : Sqlite.Engine) (q : Server.Query) (t : Sqlite.Table)
  (s col dir : string) :
  Server.sort q = Some s -> Js.matchSort s = Some (col, dir) ->
  col ∈ Server.allowedSorts ->
  exists key desc rs,
    Sqlite.column col = Some key
    /\ Sqlite.direction (Js.toUpperCase dir) = Some desc
    /\ Server.listDemons E q t = Server.Rows rs
    /\ StronglySorted (Sqlite.ordered key desc) rs.
Proof.
  intros Hs Hm Hc.
  assert (Hne : Server.nonEmpty s = true).
  { destruct s; [discriminate Hm|reflexivity]. }
  assert (Ho : Server.orderClause (Server.sort q) = Some (col, Js.toUpperCase dir)).
  { unfold Server.orderClause. rewrite Hs, Hne, Hm.
    apply includes_elem_of in Hc. now rewrite Hc. }
  destruct (column_of_sort col Hc) as [key Hkey].
  destruct (direction_of_order (Js.toUpperCase dir)) as [desc Hdesc].
  { apply direction_upper. eapply matchSort_direction; eassumption. }
  destruct (listAll_defined E q t) as [rs Hrs].
  exists key, desc, (Sqlite.window (Server.safeLimit q) (Server.safeOffset q) rs).
  split; [exact Hkey|]. split; [exact Hdesc|].
  split; [now apply listDemons_window|].
  apply window_sorted.
  unfold Server.listAll, Sqlite.resultSet, Server.statement in Hrs; simpl in Hrs.
  rewrite Ho in Hrs.
  destruct (Sqlite.applyWhere E _ _) as [rs0|]; [|discriminate].
  eapply applyOrder_sorted; eassumption.
Qed.

End ListFacts.

(** ** Sorting *)

Section Sorting.

(** A present, non-empty sort token that the pattern or the allowlist
    turns down adds no ORDER BY at all: the reply is the page of the
    filtered rows in the order the engine scans them. *)
Lemma rejected_sort_unordered (E : Sqlite.Engine) (f p ps : option string)
  (s : string) (t : Sqlite.Table) :
  Server.nonEmpty s = true ->
  (Js.matchSort s = None
   \/ exists col dir, Js.matchSort s = Some (col, dir) /\ col ∉ Server.allowedSorts) ->
  Server.orderClause (Some s) = None
  /\ exists rs,
      Sqlite.applyWhere E (Server.whereClause f) (Sqlite.scan E (Sqlite.rows t)) = Some rs
      /\ Server.listDemons E (Sample.query f (Some s) p ps) t
         = Server.Rows (Sqlite.window (Server.safeLimit (Sample.query f (Some s) p ps))
                                      (Server.safeOffset (Sample.query f (Some s) p ps)) rs).
Proof.
  intros Hne Hbad.
  assert (Ho : Server.orderClause (Some s) = None).
  { unfold Server.orderClause. rewrite Hne.
    destruct Hbad as [->|(col & dir & -> & Hc)]; [reflexivity|].
    apply includes_false in Hc. now rewrite Hc. }
  split; [exact Ho|].
  destruct (listAll_defined E (Sample.query f (Some s) p ps) t) as [rs Hrs].
  exists rs. split.
  - unfold Server.listAll, Sqlite.resultSet, Server.statement, Sample.query in Hrs.
    cbn [Sqlite.whereEq Sqlite.orderBy Server.sort Server.filter] in Hrs.
    rewrite Ho in Hrs.
    destruct (Sqlite.applyWhere E _ _) as [rs0|]; [|discriminate].
    simpl in Hrs. exact Hrs.
  - now apply listDemons_window.
Qed.

Lemma StronglySorted_filter (R : relation Sqlite.Row) (f : Sqlite.Row -> bool)
  (rs : list Sqlite.Row) :
  StronglySorted R rs -> StronglySorted R (List.filter f rs).
Proof.
  induction 1 as [|x l _ IH Hx]; simpl; [constructor|].
  destruct (f x); [|exact IH]. constructor; [exact IH|].
  apply Forall_forall. intros y Hy.
  apply list_elem_of_In, filter_In in Hy as [Hy _]. apply list_elem_of_In in Hy.
  rewrite Forall_forall in Hx. now apply Hx.
Qed.

(** The table stays in id order under inserts, so an engine that scans
    forward does answer such a request in ascending id order: that order
    is the scan's, the statement does not ask for it. *)
Lemma insert_keeps_id_order (n d r a i : option string) (t t' : Sqlite.Table)
  (o : Sqlite.Outcome) :
  StronglySorted (fun r1 r2 => Sqlite.id r1 < Sqlite.id r2) (Sqlite.rows t) ->
  Sqlite.insert n d r a i t = (t', o) ->
  StronglySorted (fun r1 r2 => Sqlite.id r1 < Sqlite.id r2) (Sqlite.rows t').
Proof.
  intros Hs. unfold Sqlite.insert. destruct n as [nm|]; [|now intros [= <- _]].
  destruct (Sqlite.hasName nm (Sqlite.rows t)); [now intros [= <- _]|].
  intros [= <- _]. simpl. apply StronglySorted_app_2.
  - intros x1 x2 H1 H2. apply list_elem_of_singleton in H2 as ->. simpl.
    destruct (maxId_ge (Sqlite.rows t)) as [_ Hmax].
    rewrite Forall_forall in Hmax.
    specialize (Hmax x1 H1). simpl in Hmax. lia.
  - exact Hs.
  - repeat constructor.
Qed.

Lemma rejected_sort_forward_scan (f p ps : option string) (s : string)
  (t : Sqlite.Table) :
  StronglySorted (fun r1 r2 => Sqlite.id r1 < Sqlite.id r2) (Sqlite.rows t) ->
  Server.orderClause (Some s) = None ->
  exists rs,
    Server.listDemons Sqlite.forward (Sample.query f (Some s) p ps) t = Server.Rows rs
    /\ StronglySorted (fun r1 r2 => Sqlite.id r1 < Sqlite.id r2) rs.
Proof.
  intros Hs Ho.
  destruct (listAll_defined Sqlite.forward (Sample.query f (Some s) p ps) t) as [rs Hrs].
  eexists. split; [apply listDemons_window; exact Hrs|].
  apply window_sorted.
  unfold Server.listAll, Sqlite.resultSet, Server.statement, Sample.query in Hrs.
  cbn [Sqlite.whereEq Sqlite.orderBy Server.sort Server.filter] in Hrs.
  rewrite Ho in Hrs. unfold Sqlite.applyWhere in Hrs.
  destruct (Server.whereClause f) as [[c v]|].
  - destruct (Sqlite.column c) as [key|]; [|discriminate].
    simpl in Hrs. injection Hrs as <-. now apply StronglySorted_filter.
  - simpl in Hrs. now injection Hrs as <-.
Qed.

(** On [$sort=name_sideways] the token fails the pattern and the statement
    carries no ORDER BY (the request without [$sort] carries
    [ORDER BY id ASC]): the order of the reply is that of the scan.  An
    engine made to scan backwards would answer in descending id order; the
    server never asks for that, and on the forward scan it runs with the
    reply is in ascending id order. *)
Example rejected_sort_carries_no_order_by :
  let q := Sample.query None (Some "name_sideways") None None in
  let q0 := Sample.query None None None None in
  Js.matchSort "name_sideways" = None
  /\ Sqlite.orderBy (Server.statement q) = None
  /\ Sqlite.sql (Server.statement q) = "SELECT * FROM demons LIMIT ? OFFSET ?"
  /\ Sqlite.sql (Server.statement q0)
     = "SELECT * FROM demons ORDER BY id ASC LIMIT ? OFFSET ?"
  /\ Sample.ids (Server.listDemons Sqlite.backward q Sample.table) = [5; 4; 3; 2; 1]
  /\ Sample.ids (Server.listDemons Sqlite.backward q0 Sample.table) = [1; 2; 3; 4; 5].
Proof. repeat split; vm_compute; reflexivity. Qed.

End Sorting.

(** ** Filtering *)

Section Filtering.

Lemma split_cons_length (sep c : ascii) (r : string) :
  Ascii.eqb c sep = false ->
  List.length (Js.split sep (String c r)) = List.length (Js.split sep r).
Proof.
  intros Hc. simpl. rewrite Hc.
  destruct (Js.split sep r) eqn:Hr; [|reflexivity].
  now destruct (split_nonempty sep r).
Qed.

(** Every separator cuts: around one occurrence the parts add up. *)
Lemma split_append_length (sep : ascii) (a b : string) :
  List.length (Js.split sep (String.append a (String sep b)))
  = (List.length (Js.split sep a) + List.length (Js.split sep b))%nat.
Proof.
  induction a as [|c a IH].
  - change (String.append "" (String sep b)) with (String sep b).
    simpl. now rewrite Ascii.eqb_refl.
  - change (String.append (String c a) (String sep b))
      with (String c (String.append a (String sep b))).
    destruct (Ascii.eqb c sep) eqn:Hc.
    + simpl. rewrite Hc. simpl. now rewrite IH.
    + rewrite !split_cons_length by assumption. exact IH.
Qed.

Lemma split_length_pos (sep : ascii) (s : string) : (1 <= List.length (Js.split sep s))%nat.
Proof.
  destruct (Js.split sep s) eqn:H; [now destruct (split_nonempty sep s)|simpl; lia].
Qed.

(** A filter the handler turns down leaves the statement without a WHERE
    clause. *)
Lemma rejected_filter_no_clause (f : string) :
  (List.length (Js.split ":" f) <> 2%nat
   \/ exists key value, Js.split ":" f = [key; value] /\ key ∉ Server.allowedFilters) ->
  Server.whereClause (Some f) = None.
Proof.
  intros H. unfold Server.whereClause.
  destruct (Server.nonEmpty f); [|reflexivity].
  destruct H as [Hlen|(key & value & -> & Hk)].
  - destruct (Js.split ":" f) as [|k [|v [|]]]; try reflexivity.
    now contradiction Hlen.
  - apply includes_false in Hk. now rewrite Hk.
Qed.

Lemma same_clause_same_reply (E : Sqlite.Engine) (f f' s p ps : option string)
  (t : Sqlite.Table) :
  Server.whereClause f = Server.whereClause f' ->
  Server.listDemons E (Sample.query f s p ps) t
  = Server.listDemons E (Sample.query f' s p ps) t.
Proof.
  intros H. unfold Server.listDemons, Sqlite.all, Sqlite.resultSet, Server.statement,
    Sample.query. cbn [Sqlite.whereEq Sqlite.orderBy Sqlite.limit Sqlite.offset
                        Server.filter Server.sort].
  now rewrite H.
Qed.

(** C2, as the handler has it.  The filter is split on every colon.  When
    that does not give exactly two parts, or the first part is not one of
    id, name, race, alignment, the statement has no WHERE clause, the reply
    is that of the same request without a filter, and it is not an error.
    A filter with a second colon, such as name:a:b, has three parts or more
    and is ignored in this way.  Two parts with an allowlisted first part
    give the clause [key = ?] with the second part bound. *)
Theorem rejected_filter_is_ignored :
  forall (E : Sqlite.Engine) (s p ps : option string) (t : Sqlite.Table),
    (forall f : string,
        (List.length (Js.split ":" f) <> 2%nat
         \/ exists key value,
             Js.split ":" f = [key; value] /\ key ∉ Server.allowedFilters) ->
        Server.whereClause (Some f) = None
        /\ Server.listDemons E (Sample.query (Some f) s p ps) t
           = Server.listDemons E (Sample.query None s p ps) t
        /\ exists rs, Server.listDemons E (Sample.query (Some f) s p ps) t = Server.Rows rs)
    /\ (forall key v1 v2 : string,
           let f := String.append key (String ":" (String.append v1 (String ":" v2))) in
           (3 <= List.length (Js.split ":" f))%nat
           /\ Server.listDemons E (Sample.query (Some f) s p ps) t
              = Server.listDemons E (Sample.query None s p ps) t)
    /\ (forall f key value : string,
           Js.split ":" f = [key; value] -> key ∈ Server.allowedFilters ->
           Server.whereClause (Some f) = Some (key, value)).
Proof.
  intros E s p ps t. split; [|split].
  - intros f H. pose proof (rejected_filter_no_clause f H) as Hw.
    split; [exact Hw|]. split.
    + now apply same_clause_same_reply.
    + destruct (listAll_defined E (Sample.query (Some f) s p ps) t) as [rs Hrs].
      eexists. apply listDemons_window. exact Hrs.
  - intros key v1 v2 f.
    assert (Hlen : (3 <= List.length (Js.split ":" f))%nat).
    { unfold f. rewrite !split_append_length.
      pose proof (split_length_pos ":" key). pose proof (split_length_pos ":" v1).
      pose proof (split_length_pos ":" v2). lia. }
    split; [exact Hlen|].
    apply same_clause_same_reply. apply rejected_filter_no_clause. left. lia.
  - intros f key value Hs Hk. unfold Server.whereClause.
    assert (Hne : Server.nonEmpty f = true).
    { destruct f; [discriminate Hs|reflexivity]. }
    rewrite Hne, Hs. apply includes_elem_of in Hk. now rewrite Hk.
Qed.

Lemma rejected_filter_is_ignored_witness :
  (Server.whereClause (Some "bogus:x") = None
   /\ Server.listDemons Sqlite.forward
        (Sample.query (Some "bogus:x") (Some "name_asc") None None) Sample.table
      = Server.listDemons Sqlite.forward
          (Sample.query None (Some "name_asc") None None) Sample.table
   /\ exists rs,
       Server.listDemons Sqlite.forward
         (Sample.query (Some "bogus:x") (Some "name_asc") None None) Sample.table
       = Server.Rows rs)
  /\ Server.whereClause (Some "race:Fata") = Some ("race", "Fata").
Proof.
  split.
  - apply (proj1 (rejected_filter_is_ignored Sqlite.forward (Some "name_asc") None None
                    Sample.table) "bogus:x").
    right. exists "bogus", "x". split; [reflexivity|].
    apply includes_false. reflexivity.
  - apply (proj2 (proj2 (rejected_filter_is_ignored Sqlite.forward None None None
                           Sample.table)) "race:Fata" "race" "Fata").
    + reflexivity.
    + apply includes_elem_of. reflexivity.
Defined.

(** C2 as stated fails on name:a:b.  Splitting on the first colon gives
    the clause name = 'a:b'; the handler splits on every colon, gets three
    parts and drops the filter, so it answers with every row where the
    stated parsing answers with the one row named a:b. *)
Lemma colon_in_value_drops_filter :
  Spec.whereClause (Some "name:a:b") = Some ("name", "a:b")
  /\ Js.split ":" "name:a:b" = ["name"; "a"; "b"]
  /\ Server.whereClause (Some "name:a:b") = None
  /\ Sample.ids (Server.listDemons Sqlite.forward
                   (Sample.query (Some "name:a:b") None None None) Sample.table)
     = [1; 2; 3; 4; 5]
  /\ Sample.ids (Spec.listDemons Sqlite.forward
                   (Sample.query (Some "name:a:b") None None None) Sample.table)
     = [3].
Proof. repeat split; vm_compute; reflexivity. Qed.

Lemma race_cell_equals (E : Sqlite.Engine) (r : Sqlite.Row) (v : string) :
  Sqlite.equalsText E (Sqlite.textOrNull (Sqlite.race r)) v
  = bool_decide (Sqlite.race r = Some v).
Proof.
  destruct (Sqlite.race r) as [x|]; cbn [Sqlite.textOrNull Sqlite.equalsText].
  - case_bool_decide as Hx.
    + injection Hx as ->. apply String.eqb_refl.
    + apply String.eqb_neq. intros ->. now apply Hx.
  - case_bool_decide as Hx; [discriminate Hx|reflexivity].
Qed.

(** On the sample table the filter keeps Jack Frost and Pixie (race
    "Fata") and leaves out the rows of race "fata" and "Fatale" and the row
    without a race. *)
Example race_filter_sample :
  Sample.ids (Server.listDemons Sqlite.forward
                (Sample.query (Some "race:Fata") None None None) Sample.table)
  = [1; 2].
Proof. vm_compute. reflexivity. Qed.

End Filtering.

(** ** Pagination *)

Section Pagination.

(** The bound LIMIT in closed form. *)
Lemma safeLimit_eq (q : Server.Query) :
  Server.safeLimit q
  = match Server.limitOf q with
    | Js.Num n => if n <? 1 then 10 else n
    | Js.NaN => 10
    end.
Proof.
  unfold Server.safeLimit, Server.orElse. destruct (Server.limitOf q) as [|n]; simpl;
    [reflexivity|]. now destruct (n <? 1).
Qed.

(** The bound OFFSET in closed form: the product is formed from the raw
    [parseInt] results and only then checked. *)
Lemma safeOffset_eq (q : Server.Query) :
  Server.safeOffset q
  = match Server.parseParam 1 (Server.page q), Server.limitOf q with
    | Js.Num k, Js.Num n => if (k - 1) * n <? 0 then 0 else (k - 1) * n
    | _, _ => 0
    end.
Proof.
  unfold Server.safeOffset, Server.offsetOf, Server.orElse.
  destruct (Server.parseParam 1 (Server.page q)) as [|k], (Server.limitOf q) as [|n];
    simpl; reflexivity.
Qed.

Lemma safeLimit_pos (q : Server.Query) : 1 <= Server.safeLimit q.
Proof.
  rewrite safeLimit_eq. destruct (Server.limitOf q) as [|n]; [lia|].
  destruct (Z.ltb_spec n 1); lia.
Qed.

Lemma safeOffset_nonneg (q : Server.Query) : 0 <= Server.safeOffset q.
Proof.
  rewrite safeOffset_eq.
  destruct (Server.parseParam 1 (Server.page q)) as [|k], (Server.limitOf q) as [|n];
    try lia.
  destruct (Z.ltb_spec ((k - 1) * n) 0); lia.
Qed.

(** The reply as a slice of the result set. *)
Lemma listDemons_slice (E : Sqlite.Engine) (q : Server.Query) (t : Sqlite.Table) :
  exists rs,
    Server.listAll E q t = Some rs
    /\ Server.listDemons E q t
       = Server.Rows (take (Z.to_nat (Server.safeLimit q))
                           (drop (Z.to_nat (Server.safeOffset q)) rs)).
Proof.
  destruct (listAll_defined E q t) as [rs Hrs]. exists rs. split; [exact Hrs|].
  rewrite (listDemons_window E q t rs Hrs). unfold Sqlite.window.
  pose proof (safeLimit_pos q). destruct (Z.ltb_spec (Server.safeLimit q) 0); [lia|].
  reflexivity.
Qed.

(** The part of the page fallback that the handler does implement.  The
    page parameters cut a window out of the filtered and sorted result
    set: with [$page=2&$pageSize=5] the reply is the five records after the
    first five.  When [$page] has no
    leading integer ([parseInt] gives NaN), or is 0 while [$pageSize] is not
    negative, the offset is 0 and the statement is the one of the same
    request with [$page=1]. *)
Theorem page_selects_window :
  forall (E : Sqlite.Engine) (f s : option string) (t : Sqlite.Table),
    (exists rs,
        Server.listAll E (Sample.query f s (Some "2") (Some "5")) t = Some rs
        /\ Server.listDemons E (Sample.query f s (Some "2") (Some "5")) t
           = Server.Rows (take 5 (drop 5 rs)))
    /\ (forall (p : string) (ps : option string),
           (Js.parseInt p = Js.NaN
            \/ (Js.parseInt p = Js.Num 0
                /\ Js.lt (Server.parseParam 10 ps) (Js.Num 0) = false)) ->
           let q := Sample.query f s (Some p) ps in
           Server.safeOffset q = 0
           /\ Server.statement q = Server.statement (Sample.query f s (Some "1") ps)
           /\ exists rs,
               Server.listAll E q t = Some rs
               /\ Server.listDemons E q t
                  = Server.Rows (take (Z.to_nat (Server.safeLimit q)) rs)).
Proof.
  intros E f s t. split.
  - destruct (listDemons_slice E (Sample.query f s (Some "2") (Some "5")) t)
      as (rs & Hrs & Hreply).
    exists rs. split; [exact Hrs|]. exact Hreply.
  - intros p ps Hp q.
    assert (Hoff : Server.safeOffset q = 0).
    { rewrite safeOffset_eq. unfold q, Sample.query, Server.limitOf.
      cbn [Server.page Server.pageSize Server.parseParam].
      destruct Hp as [->|[-> Hps]]; [reflexivity|].
      destruct (Server.parseParam 10 ps) as [|n]; [reflexivity|].
      simpl in Hps. apply Z.ltb_ge in Hps.
      destruct (Z.ltb_spec ((0 - 1) * n) 0); lia. }
    assert (Hoff1 : Server.safeOffset (Sample.query f s (Some "1") ps) = 0).
    { rewrite safeOffset_eq. unfold Sample.query, Server.limitOf.
      cbn [Server.page Server.pageSize Server.parseParam].
      change (Js.parseInt "1") with (Js.Num 1).
      destruct (Server.parseParam 10 ps) as [|n]; [reflexivity|].
      destruct (Z.ltb_spec ((1 - 1) * n) 0); lia. }
    split; [exact Hoff|]. split.
    + unfold Server.statement. rewrite Hoff, Hoff1. reflexivity.
    + destruct (listDemons_slice E q t) as (rs & Hrs & Hreply).
      exists rs. split; [exact Hrs|]. rewrite Hreply, Hoff. reflexivity.
Qed.

Lemma page_selects_window_witness :
  (Server.safeOffset (Sample.query None None (Some "0") (Some "5")) = 0
   /\ Server.statement (Sample.query None None (Some "0") (Some "5"))
      = Server.statement (Sample.query None None (Some "1") (Some "5"))
   /\ exists rs,
       Server.listAll Sqlite.forward (Sample.query None None (Some "0") (Some "5"))
         Sample.dozen = Some rs
       /\ Server.listDemons Sqlite.forward (Sample.query None None (Some "0") (Some "5"))
            Sample.dozen
          = Server.Rows
              (take (Z.to_nat (Server.safeLimit
                                 (Sample.query None None (Some "0") (Some "5")))) rs))
  /\ Server.safeOffset (Sample.query None None (Some "two") (Some "-5")) = 0.
Proof.
  split.
  - apply (proj2 (page_selects_window Sqlite.forward None None Sample.dozen)
             "0" (Some "5")).
    right. split; reflexivity.
  - apply (proj2 (page_selects_window Sqlite.forward None None Sample.dozen)
             "two" (Some "-5")).
    left. reflexivity.
Defined.

(** C3, evaluated on [$page=0&$pageSize=-5]: the offset is the
    product of -1 and -5, which passes the check for a negative offset, so
    the reply starts at the sixth record, where [$page=1] with the same
    page size starts at the first. *)
Lemma page_zero_with_negative_size :
  let q := Sample.query None None (Some "0") (Some "-5") in
  let q1 := Sample.query None None (Some "1") (Some "-5") in
  Js.parseInt "0" = Js.Num 0
  /\ Server.safeOffset q = 5
  /\ Server.safeLimit q = 10
  /\ Server.safeOffset q1 = 0
  /\ Sample.ids (Server.listDemons Sqlite.forward q Sample.dozen) = [6; 7; 8; 9; 10; 11; 12]
  /\ Sample.ids (Server.listDemons Sqlite.forward q1 Sample.dozen)
     = [1; 2; 3; 4; 5; 6; 7; 8; 9; 10].
Proof. repeat split; vm_compute; reflexivity. Qed.

(** On twelve records, [$page=2&$pageSize=5] answers with records 6 to 10. *)
Example page_two_of_five :
  Sample.ids (Server.listDemons Sqlite.forward
                (Sample.query None None (Some "2") (Some "5")) Sample.dozen)
  = [6; 7; 8; 9; 10].
Proof. vm_compute. reflexivity. Qed.

(** C10, as the handler has it.  When [$pageSize] has no leading integer
    or one below 1, and moreover [$pageSize] is non-numeric or 0, or [$page]
    is absent, non-numeric or at least 1, then the bound LIMIT is 10, the
    bound OFFSET is 0, and the reply is the first ten records of the result
    set, whatever [$page] says: the page is discarded. *)
Theorem invalid_page_size_discards_page :
  forall (E : Sqlite.Engine) (f s p : option string) (ps : string) (t : Sqlite.Table),
    (Js.parseInt ps = Js.NaN \/ exists n, Js.parseInt ps = Js.Num n /\ n < 1) ->
    (Js.parseInt ps = Js.NaN \/ Js.parseInt ps = Js.Num 0
     \/ Server.parseParam 1 p = Js.NaN
     \/ exists k, Server.parseParam 1 p = Js.Num k /\ 1 <= k) ->
    let q := Sample.query f s p (Some ps) in
    Server.safeLimit q = 10
    /\ Server.safeOffset q = 0
    /\ exists rs,
        Server.listAll E q t = Some rs
        /\ Server.listDemons E q t = Server.Rows (take 10 rs).
Proof.
  intros E f s p ps t Hps Hcase q.
  assert (Hlim : Server.safeLimit q = 10).
  { rewrite safeLimit_eq. unfold q, Sample.query, Server.limitOf.
    cbn [Server.pageSize Server.parseParam].
    destruct Hps as [->|(n & -> & Hn)]; [reflexivity|].
    destruct (Z.ltb_spec n 1); [reflexivity|lia]. }
  assert (Hoff : Server.safeOffset q = 0).
  { rewrite safeOffset_eq. unfold q, Sample.query, Server.limitOf.
    cbn [Server.page Server.pageSize Server.parseParam].
    destruct (Server.parseParam 1 p) as [|k] eqn:Hk; [reflexivity|].
    destruct (Js.parseInt ps) as [|n] eqn:Hn; [reflexivity|].
    destruct (Z.ltb_spec ((k - 1) * n) 0) as [_|Hge]; [reflexivity|].
    destruct Hcase as [Hc|[Hc|[Hc|(k' & Hc & Hk')]]]; try discriminate.
    - injection Hc as ->. lia.
    - injection Hc as <-.
      destruct Hps as [Hn'|(n' & Hn' & Hlt)]; [discriminate|].
      injection Hn' as <-. nia. }
  split; [exact Hlim|]. split; [exact Hoff|].
  destruct (listDemons_slice E q t) as (rs & Hrs & Hreply).
  exists rs. split; [exact Hrs|]. rewrite Hreply, Hoff, Hlim. reflexivity.
Qed.

Lemma invalid_page_size_discards_page_witness :
  (Server.safeLimit (Sample.query None None (Some "3") (Some "abc")) = 10
   /\ Server.safeOffset (Sample.query None None (Some "3") (Some "abc")) = 0
   /\ exists rs,
       Server.listAll Sqlite.forward (Sample.query None None (Some "3") (Some "abc"))
         Sample.dozen = Some rs
       /\ Server.listDemons Sqlite.forward
            (Sample.query None None (Some "3") (Some "abc")) Sample.dozen
          = Server.Rows (take 10 rs))
  /\ (Server.safeLimit (Sample.query None None (Some "3") (Some "-5")) = 10
      /\ Server.safeOffset (Sample.query None None (Some "3") (Some "-5")) = 0
      /\ exists rs,
          Server.listAll Sqlite.forward (Sample.query None None (Some "3") (Some "-5"))
            Sample.dozen = Some rs
          /\ Server.listDemons Sqlite.forward
               (Sample.query None None (Some "3") (Some "-5")) Sample.dozen
             = Server.Rows (take 10 rs)).
Proof.
  split.
  - apply (invalid_page_size_discards_page Sqlite.forward None None (Some "3") "abc"
             Sample.dozen).
    + left. reflexivity.
    + left. reflexivity.
  - apply (invalid_page_size_discards_page Sqlite.forward None None (Some "3") "-5"
             Sample.dozen).
    + right. exists (-5). split; [reflexivity|lia].
    + right. right. right. exists 3. split; [reflexivity|lia].
Defined.

(** C10 as stated fails on [$page=-1&$pageSize=-5]: the page size is
    below 1 and the limit is coerced to 10, but the offset is the product
    of -2 and -5, and the reply starts at the eleventh record instead of the
    first. *)
Lemma negative_page_with_negative_size :
  let q := Sample.query None None (Some "-1") (Some "-5") in
  Js.parseInt "-5" = Js.Num (-5)
  /\ Js.parseInt "-1" = Js.Num (-1)
  /\ Server.safeLimit q = 10
  /\ Server.safeOffset q = 10
  /\ Sample.ids (Server.listDemons Sqlite.forward q Sample.dozen) = [11; 12].
Proof. repeat split; vm_compute; reflexivity. Qed.

(** With a page above 1 and an unusable page size the first ten records
    come back. *)
Example page_three_of_nothing :
  Sample.ids (Server.listDemons Sqlite.forward
                (Sample.query None None (Some "3") (Some "abc")) Sample.dozen)
  = [1; 2; 3; 4; 5; 6; 7; 8; 9; 10].
Proof. vm_compute. reflexivity. Qed.

(** The handler binds a LIMIT of at least 1 and an OFFSET of at least 0,
    whatever the parameters are. *)
Theorem bound_page_is_sane :
  forall q : Server.Query,
    1 <= Sqlite.limit (Server.statement q) /\ 0 <= Sqlite.offset (Server.statement q).
Proof. intros q. split; [apply safeLimit_pos|apply safeOffset_nonneg]. Qed.

End Pagination.

(** ** Creating *)

Section Creating.

Variable formatOk : string -> string -> bool.

(** A body that passes [demonSchema] has a name and an enumerated
    alignment. *)
Lemma validate_name (body : gmap string string) :
  Server.validate formatOk Server.demonSchema body = true ->
  exists n, body !! "name" = Some n.
Proof.
  unfold Server.validate. intros H. apply andb_prop in H as [Hreq _].
  rewrite forallb_forall in Hreq.
  specialize (Hreq "name"). simpl in Hreq.
  apply bool_decide_eq_true in Hreq; [|auto].
  destruct Hreq as [n Hn]. now exists n.
Qed.

Lemma validate_alignment (body : gmap string string) :
  Server.validate formatOk Server.demonSchema body = true ->
  exists a, body !! "alignment" = Some a /\ a ∈ Server.alignments.
Proof.
  unfold Server.validate. intros H. apply andb_prop in H as [Hreq Hprop].
  rewrite forallb_forall in Hreq. rewrite forallb_forall in Hprop.
  specialize (Hreq "alignment"). simpl in Hreq.
  apply bool_decide_eq_true in Hreq; [|auto].
  destruct Hreq as [a Ha]. exists a. split; [exact Ha|].
  specialize (Hprop ("alignment", {| Server.minLength := None; Server.maxLength := None;
                                     Server.enum := Some Server.alignments;
                                     Server.format := None |})).
  simpl in Hprop. rewrite Ha in Hprop.
  assert (Hv : Server.validString formatOk
                 {| Server.minLength := None; Server.maxLength := None;
                    Server.enum := Some Server.alignments; Server.format := None |} a
               = true) by (apply Hprop; auto 10).
  unfold Server.validString in Hv. simpl in Hv.
  rewrite andb_true_r in Hv. now apply includes_elem_of.
Qed.

Lemma hasName_app (n : string) (rs rs' : list Sqlite.Row) :
  Sqlite.hasName n (rs ++ rs') = Sqlite.hasName n rs || Sqlite.hasName n rs'.
Proof. unfold Sqlite.hasName. apply existsb_app. Qed.

Lemma hasName_false_filter (n : string) (rs : list Sqlite.Row) :
  Sqlite.hasName n rs = false ->
  List.filter (fun r => String.eqb (Sqlite.name r) n) rs = [].
Proof.
  unfold Sqlite.hasName. induction rs as [|r rs IH]; simpl; [reflexivity|].
  intros H. apply orb_false_elim in H as [-> H]. now apply IH.
Qed.

(** What a successful insert does to the table. *)
Lemma insert_done (n d r a i : option string) (t t' : Sqlite.Table) (k : Z) :
  Sqlite.insert n d r a i t = (t', Sqlite.Done k) ->
  exists nm,
    n = Some nm
    /\ Sqlite.hasName nm (Sqlite.rows t) = false
    /\ k = Z.max (Sqlite.sequence t) (Sqlite.maxId (Sqlite.rows t)) + 1
    /\ t' = {| Sqlite.rows :=
                 Sqlite.rows t ++ [ {| Sqlite.id := k; Sqlite.name := nm;
                                       Sqlite.description := d; Sqlite.race := r;
                                       Sqlite.alignment := a; Sqlite.imageUrl := i |} ];
               Sqlite.sequence := k |}.
Proof.
  unfold Sqlite.insert. destruct n as [nm|]; [|discriminate].
  destruct (Sqlite.hasName nm (Sqlite.rows t)) eqn:Hn; [discriminate|].
  intros [= <- <-]. exists nm. auto.
Qed.

(** What a 201 reply says about the request and the table. *)
Lemma created_inv (body : gmap string string) (t t' : Sqlite.Table) (d : Server.Demon) :
  Server.createDemon formatOk body t = (t', Server.Created d) ->
  exists nm row,
    Server.validate formatOk Server.demonSchema body = true
    /\ body !! "name" = Some nm
    /\ Sqlite.hasName nm (Sqlite.rows t) = false
    /\ Sqlite.rows t' = Sqlite.rows t ++ [row]
    /\ Sqlite.name row = nm
    /\ Server.asDemon row = d
    /\ Server.id d = Z.max (Sqlite.sequence t) (Sqlite.maxId (Sqlite.rows t)) + 1
    /\ Sqlite.sequence t' = Server.id d.
Proof.
  unfold Server.createDemon.
  destruct (Server.validate formatOk Server.demonSchema body) eqn:Hv; [|discriminate].
  unfold Server.createHandler.
  destruct (Sqlite.insert _ _ _ _ _ t) as [t1 [k|msg]] eqn:Hins.
  - intros [= <- <-].
    apply insert_done in Hins as (nm & Hn & Hfresh & Hk & ->).
    exists nm. eexists. repeat split; try eassumption; try reflexivity.
    unfold Server.asDemon. simpl. now rewrite Hn.
  - destruct (Js.strIncludes msg "UNIQUE constraint failed"); discriminate.
Qed.

(** Whatever the reply, the counter never goes down and a 201 reply
    carries an id above the counter it found. *)
Lemma createDemon_sequence (body : gmap string string) (t t' : Sqlite.Table)
  (r : Server.CreateReply) :
  Server.createDemon formatOk body t = (t', r) ->
  Sqlite.sequence t <= Sqlite.sequence t'
  /\ forall d, r = Server.Created d ->
       Sqlite.sequence t < Server.id d <= Sqlite.sequence t'.
Proof.
  intros H. destruct r as [d| | |].
  - apply created_inv in H as (nm & row & _ & _ & _ & _ & _ & _ & Hid & Hseq).
    split; [lia|]. intros d' [= <-]. lia.
  - unfold Server.createDemon, Server.createHandler in H.
    destruct (Server.validate _ _ _).
    + destruct (Sqlite.insert _ _ _ _ _ t) as [t1 [k|msg]]; [discriminate|].
      destruct (Js.strIncludes msg _); discriminate.
    + injection H as <-. split; [lia|discriminate].
  - unfold Server.createDemon, Server.createHandler in H.
    destruct (Server.validate _ _ _); [|discriminate].
    unfold Sqlite.insert in H. destruct (body !! "name") as [nm|].
    + destruct (Sqlite.hasName nm (Sqlite.rows t)).
      * simpl in H. injection H as <-. split; [lia|discriminate].
      * discriminate.
    + simpl in H. discriminate.
  - unfold Server.createDemon, Server.createHandler in H.
    destruct (Server.validate _ _ _); [|discriminate].
    unfold Sqlite.insert in H. destruct (body !! "name") as [nm|].
    + destruct (Sqlite.hasName nm (Sqlite.rows t)).
      * simpl in H. discriminate.
      * discriminate.
    + simpl in H. injection H as <-. split; [lia|discriminate].
Qed.

Lemma createAll_ids (bodies : list (gmap string string)) (t t' : Sqlite.Table)
  (rs : list Server.CreateReply) :
  Server.createAll formatOk bodies t = (t', rs) ->
  Sqlite.sequence t <= Sqlite.sequence t'
  /\ Forall (fun i => Sqlite.sequence t < i <= Sqlite.sequence t') (Server.createdIds rs)
  /\ StronglySorted Z.lt (Server.createdIds rs).
Proof.
  revert t t' rs. induction bodies as [|b bs IH]; intros t t' rs; simpl.
  - intros [= <- <-]. simpl. split; [lia|]. split; constructor.
  - destruct (Server.createDemon formatOk b t) as [t1 r] eqn:H1.
    destruct (Server.createAll formatOk bs t1) as [t2 rs2] eqn:H2.
    intros [= <- <-].
    apply createDemon_sequence in H1 as [Hle Hid].
    apply IH in H2 as (Hle2 & Hall & Hsorted).
    assert (Hall' : Forall (fun i => Sqlite.sequence t < i <= Sqlite.sequence t2)
                           (Server.createdIds rs2)).
    { eapply Forall_impl; [exact Hall|]. simpl. intros i Hi. lia. }
    split; [lia|].
    destruct r as [d| | |]; simpl; try (split; assumption).
    specialize (Hid d eq_refl). split.
    + constructor; [lia|exact Hall'].
    + constructor; [exact Hsorted|].
      eapply Forall_impl; [exact Hall|]. simpl. intros i Hi. lia.
Qed.

End Creating.

Section CreateRoute.

(** C6.  A create body without the alignment property, or with an
    alignment outside Law, Neutral, Chaos, unknown, Light-Law, Dark-Chaos,
    Neutral-Neutral, fails the schema, is answered with 400, and leaves the
    table as it was: nothing is inserted. *)
Theorem bad_alignment_is_rejected :
  forall (formatOk : string -> string -> bool) (body : gmap string string)
         (t : Sqlite.Table),
    (body !! "alignment" = None
     \/ exists a, body !! "alignment" = Some a /\ a ∉ Server.alignments) ->
    Server.validate formatOk Server.demonSchema body = false
    /\ Server.createDemon formatOk body t = (t, Server.BadRequest)
    /\ Server.status Server.BadRequest = 400.
Proof.
  intros formatOk body t Hbad.
  assert (Hv : Server.validate formatOk Server.demonSchema body = false).
  { destruct (Server.validate formatOk Server.demonSchema body) eqn:Hv; [|reflexivity].
    apply validate_alignment in Hv as (a & Ha & Hin).
    destruct Hbad as [Hnone|(a' & Ha' & Hout)].
    - rewrite Hnone in Ha. discriminate.
    - rewrite Ha' in Ha. injection Ha as ->. contradiction. }
  split; [exact Hv|]. split; [|reflexivity].
  unfold Server.createDemon. now rewrite Hv.
Qed.

Lemma bad_alignment_is_rejected_witness :
  (Server.validate Sample.anyFormat Server.demonSchema
     (Sample.body "Pixie" "Fata" "Good") = false
   /\ Server.createDemon Sample.anyFormat (Sample.body "Pixie" "Fata" "Good") Sample.table
      = (Sample.table, Server.BadRequest)
   /\ Server.status Server.BadRequest = 400)
  /\ (Server.validate Sample.anyFormat Server.demonSchema
        (delete "alignment" (Sample.body "Pixie" "Fata" "Law")) = false
      /\ Server.createDemon Sample.anyFormat
           (delete "alignment" (Sample.body "Pixie" "Fata" "Law")) Sample.table
         = (Sample.table, Server.BadRequest)
      /\ Server.status Server.BadRequest = 400).
Proof.
  split.
  - apply (bad_alignment_is_rejected Sample.anyFormat (Sample.body "Pixie" "Fata" "Good")
             Sample.table).
    right. exists "Good". split; [reflexivity|].
    apply includes_false. reflexivity.
  - apply (bad_alignment_is_rejected Sample.anyFormat
             (delete "alignment" (Sample.body "Pixie" "Fata" "Law")) Sample.table).
    left. reflexivity.
Defined.

(** C5.  On a table that has room (its counter and ids are below 2^53), a
    body that passes the schema and whose name is not in the table is
    answered with 201 and the record that was stored: the table gains
    exactly that row, and the reply carries its id.  The id is positive,
    above the AUTOINCREMENT counter (so above every id handed out before)
    and above the id of every row of the table, and it is a number the
    reply carries exactly (at most 2^53).  Over any sequence of create
    requests that leaves a table with room, the ids of the 201 replies are
    strictly increasing, all above the counter they started from and below
    2^53. *)
Theorem create_assigns_fresh_id :
  forall (formatOk : string -> string -> bool) (body : gmap string string)
         (t : Sqlite.Table) (n : string),
    Sqlite.hasRoom t ->
    Server.validate formatOk Server.demonSchema body = true ->
    body !! "name" = Some n ->
    Sqlite.hasName n (Sqlite.rows t) = false ->
    (exists d row t',
        Server.createDemon formatOk body t = (t', Server.Created d)
        /\ Server.status (Server.Created d) = 201
        /\ Sqlite.rows t' = Sqlite.rows t ++ [row]
        /\ Server.asDemon row = d
        /\ Server.name d = Some n
        /\ Sqlite.sequence t' = Server.id d
        /\ 0 < Server.id d
        /\ Sqlite.sequence t < Server.id d
        /\ Forall (fun r => Sqlite.id r < Server.id d) (Sqlite.rows t)
        /\ Server.id d <= 2 ^ 53)
    /\ (forall bodies t0 t1 replies,
           Server.createAll formatOk bodies t0 = (t1, replies) ->
           Sqlite.hasRoom t1 ->
           StronglySorted Z.lt (Server.createdIds replies)
           /\ Forall (fun i => Sqlite.sequence t0 < i < 2 ^ 53)
                     (Server.createdIds replies)).
Proof.
  intros formatOk body t n Hroom Hv Hn Hfresh. unfold Sqlite.hasRoom in Hroom. split.
  - destruct (Server.createDemon formatOk body t) as [t' r] eqn:Hc.
    assert (Hr : exists d, r = Server.Created d).
    { unfold Server.createDemon in Hc. rewrite Hv in Hc.
      unfold Server.createHandler, Sqlite.insert in Hc. rewrite Hn, Hfresh in Hc.
      injection Hc as _ <-. eauto. }
    destruct Hr as [d ->].
    pose proof Hc as Hinv.
    apply created_inv in Hinv
      as (nm & row & _ & Hnm & _ & Hrows & Hname & Hd & Hid & Hseq).
    rewrite Hn in Hnm. injection Hnm as <-.
    exists d, row, t'. split; [reflexivity|]. split; [reflexivity|].
    split; [exact Hrows|]. split; [exact Hd|].
    split; [rewrite <- Hd; simpl; now rewrite Hname|].
    split; [exact Hseq|].
    destruct (maxId_ge (Sqlite.rows t)) as [H0 Hmax].
    split; [lia|]. split; [lia|]. split; [|lia].
    eapply Forall_impl; [exact Hmax|]. simpl. intros x Hx. lia.
  - intros bodies t0 t1 replies Hrun Hroom1. unfold Sqlite.hasRoom in Hroom1.
    apply createAll_ids in Hrun as (_ & Hall & Hsorted).
    split; [exact Hsorted|].
    eapply Forall_impl; [exact Hall|]. simpl. intros i Hi. lia.
Qed.

Lemma create_assigns_fresh_id_witness :
  exists d row t',
    Server.createDemon Sample.anyFormat (Sample.body "Mothman" "Wilder" "Neutral")
      Sample.table = (t', Server.Created d)
    /\ Server.status (Server.Created d) = 201
    /\ Sqlite.rows t' = Sqlite.rows Sample.table ++ [row]
    /\ Server.asDemon row = d
    /\ Server.name d = Some "Mothman"
    /\ Sqlite.sequence t' = Server.id d
    /\ 0 < Server.id d
    /\ Sqlite.sequence Sample.table < Server.id d
    /\ Forall (fun r => Sqlite.id r < Server.id d) (Sqlite.rows Sample.table)
    /\ Server.id d <= 2 ^ 53.
Proof.
  apply (proj1 (create_assigns_fresh_id Sample.anyFormat
                  (Sample.body "Mothman" "Wilder" "Neutral") Sample.table "Mothman"
                  eq_refl eq_refl eq_refl eq_refl)).
Defined.

(** C4.  When a create request has succeeded, a second request with the
    same name (the same bytes) that passes the schema is answered with 409,
    which is neither the 500 of a generic failure nor a 201; the failed
    insert leaves the table as it was, and the table holds exactly one row
    of that name. *)
Theorem duplicate_name_conflicts :
  forall (formatOk : string -> string -> bool) (b1 b2 : gmap string string)
         (t t1 : Sqlite.Table) (d : Server.Demon),
    Server.createDemon formatOk b1 t = (t1, Server.Created d) ->
    b2 !! "name" = b1 !! "name" ->
    Server.validate formatOk Server.demonSchema b2 = true ->
    exists n,
      b1 !! "name" = Some n
      /\ Server.createDemon formatOk b2 t1 = (t1, Server.Conflict)
      /\ Server.status Server.Conflict = 409
      /\ Server.status Server.Conflict <> Server.status Server.InternalServerError
      /\ List.length (List.filter (fun r => String.eqb (Sqlite.name r) n) (Sqlite.rows t1))
         = 1%nat.
Proof.
  intros formatOk b1 b2 t t1 d Hfirst Hsame Hv2.
  apply created_inv in Hfirst
    as (n & row & _ & Hn & Hfresh & Hrows & Hname & _ & _ & _).
  exists n. split; [exact Hn|].
  assert (Hhas : Sqlite.hasName n (Sqlite.rows t1) = true).
  { rewrite Hrows, hasName_app. apply orb_true_intro. right.
    simpl. rewrite Hname, String.eqb_refl. reflexivity. }
  split.
  - unfold Server.createDemon. rewrite Hv2.
    unfold Server.createHandler, Sqlite.insert. rewrite Hsame, Hn, Hhas. reflexivity.
  - split; [reflexivity|]. split; [discriminate|].
    rewrite Hrows, List.filter_app, (hasName_false_filter n _ Hfresh).
    simpl. rewrite Hname, String.eqb_refl. reflexivity.
Qed.

Lemma duplicate_name_conflicts_witness :
  exists n,
    Sample.body "Mothman" "Wilder" "Neutral" !! "name" = Some n
    /\ Server.createDemon Sample.anyFormat (Sample.body "Mothman" "Avian" "Chaos")
         (fst (Server.createDemon Sample.anyFormat
                 (Sample.body "Mothman" "Wilder" "Neutral") Sample.table))
       = (fst (Server.createDemon Sample.anyFormat
                 (Sample.body "Mothman" "Wilder" "Neutral") Sample.table),
          Server.Conflict)
    /\ Server.status Server.Conflict = 409
    /\ Server.status Server.Conflict <> Server.status Server.InternalServerError
    /\ List.length
         (List.filter (fun r => String.eqb (Sqlite.name r) n)
            (Sqlite.rows (fst (Server.createDemon Sample.anyFormat
                                 (Sample.body "Mothman" "Wilder" "Neutral") Sample.table))))
       = 1%nat.
Proof.
  apply (duplicate_name_conflicts Sample.anyFormat
           (Sample.body "Mothman" "Wilder" "Neutral")
           (Sample.body "Mothman" "Avian" "Chaos")
           Sample.table
           (fst (Server.createDemon Sample.anyFormat
                   (Sample.body "Mothman" "Wilder" "Neutral") Sample.table))
           {| Server.id := 6; Server.name := Some "Mothman"; Server.description := None;
              Server.race := Some "Wilder"; Server.alignment := Some "Neutral";
              Server.imageUrl := None |}).
  - vm_compute. reflexivity.
  - reflexivity.
  - vm_compute. reflexivity.
Defined.

(** Names are compared byte for byte: a name that differs in case is a
    new record. *)
Example other_case_is_another_name :
  Server.status
    (snd (Server.createDemon Sample.anyFormat (Sample.body "pixie" "Fata" "Neutral")
            Sample.table)) = 201
  /\ Server.status
       (snd (Server.createDemon Sample.anyFormat (Sample.body "Pixie" "Fata" "Neutral")
               Sample.table)) = 409.
Proof. split; vm_compute; reflexivity. Qed.

End CreateRoute.

(** ** Seeding *)

Section Seeding.

(** C9, as [seedData] has it.  The stored imageUrl is the value of
    image_source_url when that value is truthy (a non-empty string, for
    one); otherwise the value of img when that is truthy; otherwise the empty
    string.  So it is the empty string when neither property is present,
    and a property that is absent is passed over like one that is empty,
    null, zero or false. *)
Theorem seed_image_takes_first_truthy :
  forall demon : gmap string Js.Value,
    (Js.truthy (Js.get demon "image_source_url") = true ->
     Server.seedImageUrl demon = Js.get demon "image_source_url")
    /\ (Js.truthy (Js.get demon "image_source_url") = false ->
        Js.truthy (Js.get demon "img") = true ->
        Server.seedImageUrl demon = Js.get demon "img")
    /\ (Js.truthy (Js.get demon "image_source_url") = false ->
        Js.truthy (Js.get demon "img") = false ->
        Server.seedImageUrl demon = Js.JStr "")
    /\ (forall s, s <> "" -> demon !! "image_source_url" = Some (Js.JStr s) ->
        Server.seedImageUrl demon = Js.JStr s)
    /\ (forall s, s <> "" -> demon !! "image_source_url" = None ->
        demon !! "img" = Some (Js.JStr s) ->
        Server.seedImageUrl demon = Js.JStr s)
    /\ (demon !! "image_source_url" = None -> demon !! "img" = None ->
        Server.seedImageUrl demon = Js.JStr "").
Proof.
  intros demon. unfold Server.seedImageUrl, Server.seedParams, Server.seedImage, Js.or.
  cbn [snd].
  repeat split.
  - intros H. rewrite H. now rewrite H.
  - intros H1 H2. rewrite H1. now rewrite H2.
  - intros H1 H2. rewrite H1. now rewrite H2.
  - intros s Hs Hsrc. unfold Js.get. rewrite Hsrc. simpl.
    apply String.eqb_neq in Hs. rewrite Hs. simpl. now rewrite Hs.
  - intros s Hs Hsrc Himg. unfold Js.get. rewrite Hsrc, Himg. simpl.
    apply String.eqb_neq in Hs. now rewrite Hs.
  - intros Hsrc Himg. unfold Js.get. rewrite Hsrc, Himg. reflexivity.
Qed.

Lemma seed_image_takes_first_truthy_witness :
  let new : gmap string Js.Value :=
    <["image_source_url" := Js.JStr "https://example.org/pixie.png"]>
      (<["img" := Js.JStr "pixie.png"]> ∅) in
  let old : gmap string Js.Value := <["img" := Js.JStr "pixie.png"]> ∅ in
  let bare : gmap string Js.Value := <["name" := Js.JStr "Pixie"]> ∅ in
  (Server.seedImageUrl new = Js.get new "image_source_url"
   /\ Server.seedImageUrl old = Js.get old "img"
   /\ Server.seedImageUrl bare = Js.JStr "")
  /\ (Server.seedImageUrl new = Js.JStr "https://example.org/pixie.png"
      /\ Server.seedImageUrl old = Js.JStr "pixie.png"
      /\ Server.seedImageUrl bare = Js.JStr "").
Proof.
  intros new old bare.
  destruct (seed_image_takes_first_truthy new) as (N1 & _ & _ & N4 & _ & _).
  destruct (seed_image_takes_first_truthy old) as (_ & O2 & _ & _ & O5 & _).
  destruct (seed_image_takes_first_truthy bare) as (_ & _ & B3 & _ & _ & B6).
  split; [split; [|split]|split; [|split]].
  - apply N1. reflexivity.
  - apply O2; reflexivity.
  - apply B3; reflexivity.
  - apply (N4 "https://example.org/pixie.png"); [discriminate|reflexivity].
  - apply (O5 "pixie.png"); [discriminate|reflexivity|reflexivity].
  - apply B6; reflexivity.
Defined.

(** C9 as stated fails when image_source_url is present with a falsy
    value.  With an empty image_source_url beside a legacy img, the stored
    value is that of img, not the value of image_source_url; with a null
    image_source_url alone, the stored value is the empty string, not
    null. *)
Lemma present_but_empty_source_is_passed_over :
  let both : gmap string Js.Value :=
    <["image_source_url" := Js.JStr ""]> (<["img" := Js.JStr "pixie.png"]> ∅) in
  let null : gmap string Js.Value := <["image_source_url" := Js.JNull]> ∅ in
  both !! "image_source_url" = Some (Js.JStr "")
  /\ Server.seedImageUrl both = Js.JStr "pixie.png"
  /\ null !! "image_source_url" = Some Js.JNull
  /\ Server.seedImageUrl null = Js.JStr "".
Proof. repeat split. Qed.

End Seeding.

(** ** The seed loader *)

Section SeedLoader.

Variable render : Js.Value -> option string.
Variable bump : bool.

Lemma hasName_elem_of (n : string) (rs : list Sqlite.Row) :
  Sqlite.hasName n rs = true <-> n ∈ map Sqlite.name rs.
Proof.
  unfold Sqlite.hasName. rewrite existsb_exists, list_elem_of_In, in_map_iff. split.
  - intros (r & Hr & Heq). apply String.eqb_eq in Heq. eauto.
  - intros (r & Heq & Hr). exists r. split; [exact Hr|]. now apply String.eqb_eq.
Qed.

(** What [INSERT OR IGNORE] does to the rows. *)
Lemma insertOrIgnore_rows (n d r a i : option string) (t : Sqlite.Table) :
  Sqlite.rows (Sqlite.insertOrIgnore bump n d r a i t)
  = match n with
    | Some nm =>
        if Sqlite.hasName nm (Sqlite.rows t) then Sqlite.rows t
        else Sqlite.rows t
             ++ [ {| Sqlite.id := Z.max (Sqlite.sequence t) (Sqlite.maxId (Sqlite.rows t)) + 1;
                     Sqlite.name := nm; Sqlite.description := d; Sqlite.race := r;
                     Sqlite.alignment := a; Sqlite.imageUrl := i |} ]
    | None => Sqlite.rows t
    end.
Proof.
  unfold Sqlite.insertOrIgnore, Sqlite.insert. destruct n as [nm|].
  - destruct (Sqlite.hasName nm (Sqlite.rows t)); [|reflexivity].
    now destruct bump.
  - now destruct bump.
Qed.

Lemma insertOrIgnore_sequence (n d r a i : option string) (t : Sqlite.Table) :
  Sqlite.sequence t <= Sqlite.sequence (Sqlite.insertOrIgnore bump n d r a i t)
  /\ Forall (fun x => Sqlite.id x <= Sqlite.sequence (Sqlite.insertOrIgnore bump n d r a i t))
       (Sqlite.rows (Sqlite.insertOrIgnore bump n d r a i t))
     \/ Sqlite.insertOrIgnore bump n d r a i t = t.
Proof.
  destruct (maxId_ge (Sqlite.rows t)) as [_ Hmax].
  assert (Hold : Forall (fun x => Sqlite.id x
                                  <= Z.max (Sqlite.sequence t) (Sqlite.maxId (Sqlite.rows t)) + 1)
                        (Sqlite.rows t)).
  { eapply Forall_impl; [exact Hmax|]. simpl. intros x Hx. lia. }
  unfold Sqlite.insertOrIgnore, Sqlite.insert. destruct n as [nm|].
  - destruct (Sqlite.hasName nm (Sqlite.rows t)).
    + destruct bump; [left|now right]. simpl. split; [lia|exact Hold].
    + left. simpl. split; [lia|]. apply Forall_app. split; [exact Hold|].
      constructor; [simpl; lia|constructor].
  - destruct bump; [left|now right]. simpl. split; [lia|exact Hold].
Qed.

Lemma seedOne_rows (demon : gmap string Js.Value) (t : Sqlite.Table) :
  Sqlite.rows (Seed.seedOne render bump demon t)
  = match Seed.rowOf render
            (Z.max (Sqlite.sequence t) (Sqlite.maxId (Sqlite.rows t)) + 1) demon with
    | Some row =>
        if Sqlite.hasName (Sqlite.name row) (Sqlite.rows t) then Sqlite.rows t
        else Sqlite.rows t ++ [row]
    | None => Sqlite.rows t
    end.
Proof.
  unfold Seed.seedOne, Server.seedParams, Seed.rowOf, Server.seedImageUrl,
    Server.seedParams. cbn [snd].
  rewrite insertOrIgnore_rows.
  destruct (Seed.stored render (Js.get demon "name")) as [nm|]; reflexivity.
Qed.

(** The loader is a run of [seedOne] over the objects that reach
    [stmt.run]. *)
Lemma seedItems_reached (items : list (option (gmap string Js.Value)))
  (t : Sqlite.Table) :
  Seed.seedItems render bump items t
  = fold_left (fun acc d => Seed.seedOne render bump d acc) (Seed.reached items) t.
Proof.
  revert t. induction items as [|[d|] items IH]; intros t; simpl; [reflexivity| |reflexivity].
  apply IH.
Qed.

Lemma seedData_queue (dir : Seed.Directory) (t : Sqlite.Table) :
  Seed.seedData render bump dir t
  = fold_left (fun acc d => Seed.seedOne render bump d acc) (Seed.queue dir) t.
Proof.
  destruct dir as [files|]; [|reflexivity]. unfold Seed.seedData, Seed.queue.
  revert t. induction (List.filter Seed.isJson files) as [|[f c] l IH]; intros t; simpl;
    [reflexivity|].
  rewrite fold_left_app, IH. f_equal.
  destruct c as [| |items]; simpl; try reflexivity. apply seedItems_reached.
Qed.

Lemma seedOne_prefix (demon : gmap string Js.Value) (t : Sqlite.Table) :
  Sqlite.rows t `prefix_of` Sqlite.rows (Seed.seedOne render bump demon t).
Proof.
  rewrite seedOne_rows. destruct (Seed.rowOf _ _ _) as [row|]; [|reflexivity].
  destruct (Sqlite.hasName _ _); [reflexivity|]. now apply prefix_app_r.
Qed.

Lemma seedRun_prefix (l : list (gmap string Js.Value)) (t : Sqlite.Table) :
  Sqlite.rows t
  `prefix_of` Sqlite.rows (fold_left (fun acc d => Seed.seedOne render bump d acc) l t).
Proof.
  revert t. induction l as [|d l IH]; intros t; simpl; [reflexivity|].
  etransitivity; [apply seedOne_prefix|apply IH].
Qed.

Lemma covered_prefix (rs rs' : list Sqlite.Row) (demon : gmap string Js.Value) :
  rs `prefix_of` rs' -> Seed.covered render rs demon -> Seed.covered render rs' demon.
Proof.
  intros [k ->]. unfold Seed.covered.
  destruct (Seed.stored render (Js.get demon "name")) as [nm|]; [|auto].
  intros H. rewrite hasName_app, H. reflexivity.
Qed.

Lemma seedOne_covers (demon : gmap string Js.Value) (t : Sqlite.Table) :
  Seed.covered render (Sqlite.rows (Seed.seedOne render bump demon t)) demon.
Proof.
  rewrite seedOne_rows. unfold Seed.covered, Seed.rowOf.
  destruct (Seed.stored render (Js.get demon "name")) as [nm|]; [|exact I].
  cbn [Sqlite.name].
  destruct (Sqlite.hasName nm (Sqlite.rows t)) eqn:Hn; [exact Hn|].
  rewrite hasName_app. simpl. rewrite String.eqb_refl. now rewrite orb_true_r.
Qed.

Lemma seedOne_covered (demon : gmap string Js.Value) (t : Sqlite.Table) :
  Seed.covered render (Sqlite.rows t) demon ->
  Sqlite.rows (Seed.seedOne render bump demon t) = Sqlite.rows t.
Proof.
  rewrite seedOne_rows. unfold Seed.covered, Seed.rowOf.
  destruct (Seed.stored render (Js.get demon "name")) as [nm|]; [|reflexivity].
  cbn [Sqlite.name]. now intros ->.
Qed.

Lemma seedRun_covers (l : list (gmap string Js.Value)) (t : Sqlite.Table) :
  Forall (Seed.covered render
            (Sqlite.rows (fold_left (fun acc d => Seed.seedOne render bump d acc) l t))) l.
Proof.
  revert t. induction l as [|d l IH]; intros t; simpl; constructor; [|apply IH].
  eapply covered_prefix; [apply seedRun_prefix|apply seedOne_covers].
Qed.

Lemma seedRun_covered (l : list (gmap string Js.Value)) (t : Sqlite.Table) :
  Forall (Seed.covered render (Sqlite.rows t)) l ->
  Sqlite.rows (fold_left (fun acc d => Seed.seedOne render bump d acc) l t) = Sqlite.rows t.
Proof.
  revert t. induction l as [|d l IH]; intros t Hall; simpl; [reflexivity|].
  apply Forall_cons in Hall as [Hd Hl].
  rewrite IH; [now apply seedOne_covered|].
  now rewrite seedOne_covered.
Qed.

End SeedLoader.

Section SeedProperties.

(** Loading a seeds directory a second time adds no row: every object that
    reaches the INSERT OR IGNORE either has no name or finds its name taken.
    So a restart on the same seeds leaves the rows of the database as they
    were. *)
Theorem seeding_twice_adds_nothing :
  forall (render : Js.Value -> option string) (bump : bool) (dir : Seed.Directory)
         (t : Sqlite.Table) (db : option Sqlite.Table),
    Sqlite.rows (Seed.seedData render bump dir (Seed.seedData render bump dir t))
    = Sqlite.rows (Seed.seedData render bump dir t)
    /\ Sqlite.rows (Seed.initDb render bump dir (Some (Seed.initDb render bump dir db)))
       = Sqlite.rows (Seed.initDb render bump dir db).
Proof.
  intros render bump dir t db.
  assert (H : forall t0,
             Sqlite.rows (Seed.seedData render bump dir (Seed.seedData render bump dir t0))
             = Sqlite.rows (Seed.seedData render bump dir t0)).
  { intros t0. rewrite (seedData_queue render bump dir (Seed.seedData render bump dir t0)).
    apply seedRun_covered. rewrite seedData_queue. apply seedRun_covers. }
  split; [apply H|]. unfold Seed.initDb. simpl. apply H.
Qed.

Lemma seedRun_sound (render : Js.Value -> option string) (bump : bool)
  (l : list (gmap string Js.Value)) (t : Sqlite.Table) (r : Sqlite.Row) :
  r ∈ Sqlite.rows (fold_left (fun acc d => Seed.seedOne render bump d acc) l t) ->
  r ∈ Sqlite.rows t \/ exists demon k, demon ∈ l /\ Seed.rowOf render k demon = Some r.
Proof.
  revert t. induction l as [|d l IH]; intros t; simpl; [auto|].
  intros Hr. apply IH in Hr as [Hr|(demon & k & Hin & Hrow)].
  - rewrite seedOne_rows in Hr.
    destruct (Seed.rowOf render _ d) as [row|] eqn:Hrow; [|auto].
    destruct (Sqlite.hasName _ _); [auto|].
    apply elem_of_app in Hr as [Hr|Hr]; [auto|].
    apply list_elem_of_singleton in Hr as ->. right. eexists d, _.
    split; [constructor|exact Hrow].
  - right. exists demon, k. split; [now constructor|exact Hrow].
Qed.

(** Seeding only appends, when the name of every seed object that reaches
    the insert is plain (not an array or an object, which the driver would
    not bind as a name).  The rows that were in the table stay where they
    are, unchanged; every other row afterwards is a seed object that reached
    the insert, stored with its normalised image and its alignment as given;
    and every such object that has a name finds a row of that name
    afterwards. *)
Theorem seeding_appends_seed_rows :
  forall (render : Js.Value -> option string) (bump : bool) (dir : Seed.Directory)
         (t : Sqlite.Table),
    Forall Seed.plain (Seed.queue dir) ->
    Sqlite.rows t `prefix_of` Sqlite.rows (Seed.seedData render bump dir t)
    /\ (forall r,
           r ∈ Sqlite.rows (Seed.seedData render bump dir t) ->
           r ∈ Sqlite.rows t
           \/ exists demon k, demon ∈ Seed.queue dir /\ Seed.rowOf render k demon = Some r)
    /\ (forall demon nm,
           demon ∈ Seed.queue dir ->
           Seed.stored render (Js.get demon "name") = Some nm ->
           Sqlite.hasName nm (Sqlite.rows (Seed.seedData render bump dir t)) = true).
Proof.
  intros render bump dir t _. rewrite seedData_queue. split; [apply seedRun_prefix|].
  split; [intros r; apply seedRun_sound|].
  intros demon nm Hin Hnm.
  pose proof (seedRun_covers render bump (Seed.queue dir) t) as Hall.
  rewrite Forall_forall in Hall. specialize (Hall demon Hin).
  unfold Seed.covered in Hall. now rewrite Hnm in Hall.
Qed.

Lemma seeding_appends_seed_rows_witness :
  let pixie : gmap string Js.Value :=
    <["name" := Js.JStr "Pixie"]> (<["img" := Js.JStr "pixie.png"]> ∅) in
  let dir : Seed.Directory := Some [("batch1.json", Seed.Items [Some pixie])] in
  Sqlite.rows Sample.table
    `prefix_of` Sqlite.rows (Seed.seedData (fun _ => None) true dir Sample.table)
  /\ Sqlite.hasName "Pixie"
       (Sqlite.rows (Seed.seedData (fun _ => None) true dir Sample.table)) = true.
Proof.
  intros pixie dir.
  destruct (seeding_appends_seed_rows (fun _ => None) true dir Sample.table)
    as (Hprefix & _ & Hfound).
  - simpl. apply Forall_singleton. unfold Seed.plain. vm_compute. discriminate.
  - split; [exact Hprefix|].
    apply (Hfound pixie "Pixie").
    + simpl. apply list_elem_of_singleton. reflexivity.
    + reflexivity.
Defined.

Lemma seedItems_stop (render : Js.Value -> option string) (bump : bool)
  (items : list (gmap string Js.Value)) (rest : list (option (gmap string Js.Value)))
  (t : Sqlite.Table) :
  Seed.seedItems render bump (map Some items ++ None :: rest) t
  = Seed.seedItems render bump (map Some items) t.
Proof.
  revert t. induction items as [|d items IH]; intros t; simpl; [reflexivity|apply IH].
Qed.

(** A directory entry that is not named [*.json], or whose content does not
    parse, or parses to something that is not an array, changes nothing: the
    table comes out as if the entry were not there, and the files after it
    are loaded all the same.  In a file that holds an array, the objects
    after a [null] element are not loaded. *)
Theorem unusable_seed_file_is_skipped :
  forall (render : Js.Value -> option string) (bump : bool)
         (before after : list (string * Seed.Parsed)) (f : string) (c : Seed.Parsed)
         (t : Sqlite.Table),
    (Js.endsWith f ".json" = false \/ c = Seed.Unparsable \/ c = Seed.NotAnArray) ->
    Seed.seedData render bump (Some (before ++ (f, c) :: after)) t
    = Seed.seedData render bump (Some (before ++ after)) t
    /\ forall items rest,
        Seed.seedFile render bump (Seed.Items (map Some items ++ None :: rest)) t
        = Seed.seedFile render bump (Seed.Items (map Some items)) t.
Proof.
  intros render bump before after f c t Hbad. split.
  - unfold Seed.seedData. rewrite !List.filter_app, !fold_left_app.
    cbn [List.filter]. change (Seed.isJson (f, c)) with (Js.endsWith f ".json").
    destruct (Js.endsWith f ".json") eqn:Hf; [|reflexivity].
    destruct Hbad as [Hbad|[->| ->]]; [discriminate|reflexivity|reflexivity].
  - intros items rest. simpl. apply seedItems_stop.
Qed.

Lemma unusable_seed_file_is_skipped_witness :
  let pixie : gmap string Js.Value :=
    <["name" := Js.JStr "Pixie"]> (<["alignment" := Js.JStr "Neutral"]> ∅) in
  let render : Js.Value -> option string := fun _ => None in
  (Seed.seedData render false
     (Some ([("a.json", Seed.Items [Some pixie])] ++ ("b.json", Seed.Unparsable) :: [])) Sqlite.empty
   = Seed.seedData render false (Some ([("a.json", Seed.Items [Some pixie])] ++ [])) Sqlite.empty
   /\ forall items rest,
       Seed.seedFile render false (Seed.Items (map Some items ++ None :: rest)) Sqlite.empty
       = Seed.seedFile render false (Seed.Items (map Some items)) Sqlite.empty)
  /\ (Seed.seedData render false
        (Some ([] ++ ("notes.txt", Seed.Items [Some pixie]) :: [])) Sqlite.empty
      = Seed.seedData render false (Some ([] ++ [])) Sqlite.empty
      /\ forall items rest,
          Seed.seedFile render false (Seed.Items (map Some items ++ None :: rest)) Sqlite.empty
          = Seed.seedFile render false (Seed.Items (map Some items)) Sqlite.empty).
Proof.
  intros pixie render. split.
  - apply (unusable_seed_file_is_skipped render false
             [("a.json", Seed.Items [Some pixie])] [] "b.json" Seed.Unparsable Sqlite.empty).
    right. left. reflexivity.
  - apply (unusable_seed_file_is_skipped render false [] [] "notes.txt"
             (Seed.Items [Some pixie]) Sqlite.empty).
    left. reflexivity.
Defined.

(** A seeded sample: two files, the second repeating a name of the first
    and holding a null element. *)
Example seedData_sample :
  let obj (n a : string) : gmap string Js.Value :=
    <["name" := Js.JStr n]> (<["alignment" := Js.JStr a]> (<["img" := Js.JStr "x.png"]> ∅)) in
  map (fun r => (Sqlite.id r, Sqlite.name r, Sqlite.alignment r, Sqlite.imageUrl r))
    (Sqlite.rows
       (Seed.initDb (fun _ => None) false
          (Some [ ("batch1.json", Seed.Items [Some (obj "Pixie" "Neutral");
                                              Some (obj "Angel" "Law")]);
                  ("readme.md", Seed.Unparsable);
                  ("batch2.json", Seed.Items [Some (obj "Pixie" "Chaos");
                                              Some (obj "Oni" "Chaos");
                                              None;
                                              Some (obj "Slime" "Chaos")]) ])
          None))
  = [ (1, "Pixie", Some "Neutral", Some "x.png");
      (2, "Angel", Some "Law", Some "x.png");
      (3, "Oni", Some "Chaos", Some "x.png") ].
Proof. vm_compute. reflexivity. Qed.

End SeedProperties.

(** ** The table under the operations of the server *)

Section Consistency.

Lemma empty_consistent : Sqlite.consistent Sqlite.empty.
Proof. repeat split; constructor. Qed.

Lemma insert_consistent (n d r a i : option string) (t t' : Sqlite.Table)
  (o : Sqlite.Outcome) :
  Sqlite.consistent t -> Sqlite.insert n d r a i t = (t', o) -> Sqlite.consistent t'.
Proof.
  intros (Hnames & Hids & Hbound) Hins.
  pose proof (insert_keeps_id_order n d r a i t t' o Hids Hins) as Hids'.
  destruct o as [k|msg].
  - apply insert_done in Hins as (nm & -> & Hfresh & Hk & ->).
    unfold Sqlite.consistent. cbn [Sqlite.rows Sqlite.sequence] in *.
    split; [|split; [exact Hids'|]].
    + rewrite map_app. simpl. apply NoDup_app. split; [exact Hnames|]. split.
      * intros x Hx Hx'. apply list_elem_of_singleton in Hx' as ->.
        apply hasName_elem_of in Hx. rewrite Hfresh in Hx. discriminate.
      * apply NoDup_singleton.
    + destruct (maxId_ge (Sqlite.rows t)) as [H0 _].
      apply Forall_app. split.
      * eapply Forall_impl; [exact Hbound|]. simpl. intros x Hx. lia.
      * constructor; [simpl; lia|constructor].
  - unfold Sqlite.insert in Hins. destruct n as [nm|].
    + destruct (Sqlite.hasName nm (Sqlite.rows t)); [|discriminate].
      injection Hins as <-. now repeat split.
    + injection Hins as <-. now repeat split.
Qed.

Lemma insertOrIgnore_consistent (bump : bool) (n d r a i : option string)
  (t : Sqlite.Table) :
  Sqlite.consistent t -> Sqlite.consistent (Sqlite.insertOrIgnore bump n d r a i t).
Proof.
  intros Ht. unfold Sqlite.insertOrIgnore.
  destruct (Sqlite.insert n d r a i t) as [t' [k|msg]] eqn:Hins.
  - eapply insert_consistent; eassumption.
  - destruct bump; [|exact Ht].
    destruct Ht as (Hnames & Hids & Hbound). repeat split; simpl; try assumption.
    eapply Forall_impl; [exact Hbound|]. simpl. intros x Hx. lia.
Qed.

Lemma createDemon_consistent (formatOk : string -> string -> bool)
  (body : gmap string string) (t : Sqlite.Table) :
  Sqlite.consistent t -> Sqlite.consistent (fst (Server.createDemon formatOk body t)).
Proof.
  intros Ht. unfold Server.createDemon.
  destruct (Server.validate formatOk Server.demonSchema body); [|exact Ht].
  unfold Server.createHandler.
  destruct (Sqlite.insert _ _ _ _ _ t) as [t' o] eqn:Hins.
  pose proof (insert_consistent _ _ _ _ _ _ _ _ Ht Hins) as Ht'.
  destruct o as [k|msg]; [exact Ht'|].
  now destruct (Js.strIncludes msg "UNIQUE constraint failed").
Qed.

Lemma createAll_consistent (formatOk : string -> string -> bool)
  (bodies : list (gmap string string)) (t : Sqlite.Table) :
  Sqlite.consistent t -> Sqlite.consistent (fst (Server.createAll formatOk bodies t)).
Proof.
  revert t. induction bodies as [|b bs IH]; intros t Ht; simpl; [exact Ht|].
  pose proof (createDemon_consistent formatOk b t Ht) as H1.
  destruct (Server.createDemon formatOk b t) as [t1 r]. simpl in H1.
  specialize (IH t1 H1).
  destruct (Server.createAll formatOk bs t1) as [t2 rs]. exact IH.
Qed.

Lemma seedData_consistent (render : Js.Value -> option string) (bump : bool)
  (dir : Seed.Directory) (t : Sqlite.Table) :
  Sqlite.consistent t -> Sqlite.consistent (Seed.seedData render bump dir t).
Proof.
  rewrite seedData_queue. revert t.
  induction (Seed.queue dir) as [|d l IH]; intros t Ht; simpl; [exact Ht|].
  apply IH. unfold Seed.seedOne.
  destruct (Server.seedParams d) as [[[[n de] r] a] i].
  now apply insertOrIgnore_consistent.
Qed.

(** Whatever the server does to the table keeps what the schema promises:
    names pairwise distinct, ids positive, strictly increasing in rowid order
    and not above the counter.  This holds for a create request of any body,
    for loading any seeds directory, and so for a server started on a fresh
    database with any seeds and then sent any sequence of create requests. *)
Theorem table_stays_consistent :
  forall (formatOk : string -> string -> bool) (render : Js.Value -> option string)
         (bump : bool),
    (forall body t,
        Sqlite.consistent t -> Sqlite.consistent (fst (Server.createDemon formatOk body t)))
    /\ (forall dir t,
           Sqlite.consistent t -> Sqlite.consistent (Seed.seedData render bump dir t))
    /\ (forall dir bodies,
           Sqlite.consistent
             (fst (Server.createAll formatOk bodies (Seed.initDb render bump dir None)))).
Proof.
  intros formatOk render bump. split; [|split].
  - intros body t. apply createDemon_consistent.
  - intros dir t. apply seedData_consistent.
  - intros dir bodies. apply createAll_consistent.
    unfold Seed.initDb. simpl. apply seedData_consistent, empty_consistent.
Qed.

Lemma table_stays_consistent_witness :
  Sqlite.consistent
    (fst (Server.createDemon Sample.anyFormat (Sample.body "Mothman" "Wilder" "Neutral")
            Sample.table)).
Proof.
  apply (proj1 (table_stays_consistent Sample.anyFormat (fun _ => None) false)).
  repeat split.
  - apply (bool_decide_unpack (NoDup (map Sqlite.name (Sqlite.rows Sample.table)))).
    vm_compute. exact I.
  - repeat constructor; vm_compute; reflexivity.
  - repeat constructor; vm_compute; try reflexivity; discriminate.
Defined.

End Consistency.

(** ** The schema and the outcomes of a create request *)

Section Schema.

Lemma optional_check (o : option string) (f : string -> bool) :
  match o with Some v => f v | None => true end = true
  <-> forall v, o = Some v -> f v = true.
Proof.
  destruct o as [x|]; split.
  - intros H v [= <-]. exact H.
  - intros H. now apply H.
  - intros _ v H. discriminate H.
  - reflexivity.
Qed.

(** What [demonSchema] accepts, property by property: a name of 1 to 100
    code points, a race of at most 50, an alignment of the enumeration, and,
    when they are there, a description of at most 500 code points and an
    imageUrl that passes the uri format.  Other properties of the body are
    not looked at. *)
Theorem demonSchema_accepts_exactly :
  forall (formatOk : string -> string -> bool) (body : gmap string string),
    Server.validate formatOk Server.demonSchema body = true
    <-> (exists n, body !! "name" = Some n
                   /\ (1 <= Server.codePoints n)%nat /\ (Server.codePoints n <= 100)%nat)
        /\ (exists r, body !! "race" = Some r /\ (Server.codePoints r <= 50)%nat)
        /\ (exists a, body !! "alignment" = Some a /\ a ∈ Server.alignments)
        /\ (forall d, body !! "description" = Some d -> (Server.codePoints d <= 500)%nat)
        /\ (forall u, body !! "imageUrl" = Some u -> formatOk "uri" u = true).
Proof.
  intros formatOk body. unfold Server.validate.
  cbn [Server.required Server.properties Server.demonSchema forallb].
  rewrite !andb_true_iff, !bool_decide_eq_true, !optional_check.
  unfold Server.validString.
  cbn [Server.minLength Server.maxLength Server.enum Server.format].
  split.
  - intros (([n Hn] & [r Hr] & [a Ha] & _) & Pn & Pd & Pr & Pa & Pu & _).
    specialize (Pn n Hn). specialize (Pr r Hr). specialize (Pa a Ha).
    rewrite !andb_true_iff in Pn, Pr, Pa.
    destruct Pn as (((Pn1 & Pn2) & _) & _). destruct Pr as (((_ & Pr1) & _) & _).
    destruct Pa as ((_ & Pa1) & _).
    apply Nat.leb_le in Pn1, Pn2. apply Nat.leb_le in Pr1. apply includes_elem_of in Pa1.
    split; [exists n; auto|]. split; [exists r; auto|]. split; [exists a; auto|].
    split.
    + intros d Hd. specialize (Pd d Hd). rewrite !andb_true_iff in Pd.
      destruct Pd as (((_ & Pd1) & _) & _). now apply Nat.leb_le.
    + intros u Hu. specialize (Pu u Hu). rewrite !andb_true_iff in Pu.
      now destruct Pu as (_ & Pu1).
  - intros ((n & Hn & Pn1 & Pn2) & (r & Hr & Pr1) & (a & Ha & Pa1) & Pd & Pu).
    split; [repeat split; eauto|].
    repeat split; try exact I.
    + intros v Hv. rewrite Hn in Hv. injection Hv as <-.
      rewrite !andb_true_iff. repeat split; now apply Nat.leb_le.
    + intros v Hv. rewrite !andb_true_iff. repeat split. apply Nat.leb_le. now apply Pd.
    + intros v Hv. rewrite Hr in Hv. injection Hv as <-.
      rewrite !andb_true_iff. repeat split. now apply Nat.leb_le.
    + intros v Hv. rewrite Ha in Hv. injection Hv as <-.
      rewrite !andb_true_iff. repeat split. now apply includes_elem_of.
    + intros v Hv. rewrite !andb_true_iff. repeat split. now apply Pu.
Qed.

(** On a table that has room (its counter and ids are below 2^53), and as
    long as the store itself runs the statement, the reply to a create
    request is decided by the schema and the names in the table: 400 exactly
    when the body fails the schema, 409 exactly when it passes and its name
    is taken, 201 exactly when it passes and its name is free.  A body that
    passed the schema has a name, so that the insert does not fail on
    NOT NULL.  The table changes only with a 201. *)
Theorem create_reply_is_decided :
  forall (formatOk : string -> string -> bool) (body : gmap string string)
         (t : Sqlite.Table),
    Sqlite.hasRoom t ->
    (Server.validate formatOk Server.demonSchema body = true ->
     exists n, body !! "name" = Some n)
    /\ (snd (Server.createDemon formatOk body t) = Server.BadRequest
        <-> Server.validate formatOk Server.demonSchema body = false)
    /\ (snd (Server.createDemon formatOk body t) = Server.Conflict
        <-> Server.validate formatOk Server.demonSchema body = true
            /\ exists n, body !! "name" = Some n
                         /\ Sqlite.hasName n (Sqlite.rows t) = true)
    /\ ((exists d, snd (Server.createDemon formatOk body t) = Server.Created d)
        <-> Server.validate formatOk Server.demonSchema body = true
            /\ exists n, body !! "name" = Some n
                         /\ Sqlite.hasName n (Sqlite.rows t) = false)
    /\ (fst (Server.createDemon formatOk body t) = t
        \/ exists d, snd (Server.createDemon formatOk body t) = Server.Created d).
Proof.
  intros formatOk body t _. unfold Server.createDemon.
  destruct (Server.validate formatOk Server.demonSchema body) eqn:Hv.
  - destruct (validate_name formatOk body Hv) as [n Hn].
    unfold Server.createHandler, Sqlite.insert. rewrite Hn.
    destruct (Sqlite.hasName n (Sqlite.rows t)) eqn:Hhas; cbn [fst snd Js.strIncludes].
    + change (Js.strIncludes "SQLITE_CONSTRAINT: UNIQUE constraint failed: demons.name"
                "UNIQUE constraint failed") with true. cbn [fst snd].
      split; [eauto|]. split; [split; discriminate|].
      split; [split; [eauto|reflexivity]|].
      split; [|now left].
      split.
      * intros [d Hd]. discriminate.
      * intros (_ & n' & Hn' & Hfree). injection Hn' as <-. congruence.
    + split; [eauto|]. split; [split; discriminate|].
      split.
      * split; [discriminate|]. intros (_ & n' & Hn' & Htaken).
        injection Hn' as <-. congruence.
      * split; [|right; eauto]. split; eauto.
  - cbn [fst snd]. split; [discriminate|]. split; [split; reflexivity|].
    split; [split; [discriminate|intros [? _]; discriminate]|].
    split; [|now left]. split.
    + intros [d Hd]. discriminate.
    + intros [? _]. discriminate.
Qed.

Lemma create_reply_is_decided_witness :
  snd (Server.createDemon Sample.anyFormat (Sample.body "Pixie" "Fairy" "Law")
         Sample.table) = Server.Conflict
  /\ exists d,
      snd (Server.createDemon Sample.anyFormat (Sample.body "Mothman" "Wilder" "Neutral")
             Sample.table) = Server.Created d.
Proof.
  split.
  - destruct (create_reply_is_decided Sample.anyFormat (Sample.body "Pixie" "Fairy" "Law")
                Sample.table) as (_ & _ & H & _).
    + reflexivity.
    + apply H. split; [reflexivity|]. exists "Pixie". split; reflexivity.
  - destruct (create_reply_is_decided Sample.anyFormat
                (Sample.body "Mothman" "Wilder" "Neutral") Sample.table)
      as (_ & _ & _ & H & _).
    + reflexivity.
    + apply H. split; [reflexivity|]. exists "Mothman". split; reflexivity.
Defined.

End Schema.

(** ** More about the list route *)

Section ListProperties.

Lemma split_no_sep (sep : ascii) (s : string) :
  ~ In sep (list_ascii_of_string s) -> Js.split sep s = [s].
Proof.
  induction s as [|c r IH]; simpl; [reflexivity|].
  intros Hno. destruct (Ascii.eqb_spec c sep) as [->|Hne].
  - exfalso. apply Hno. now left.
  - rewrite IH; [reflexivity|]. intros Hin. apply Hno. now right.
Qed.

Lemma split_first_part (sep : ascii) (a b : string) :
  ~ In sep (list_ascii_of_string a) ->
  Js.split sep (String.append a (String sep b)) = a :: Js.split sep b.
Proof.
  induction a as [|c a IH]; intros Hno.
  - change (String.append "" (String sep b)) with (String sep b).
    simpl. now rewrite Ascii.eqb_refl.
  - change (String.append (String c a) (String sep b))
      with (String c (String.append a (String sep b))).
    simpl in Hno |- *. destruct (Ascii.eqb_spec c sep) as [->|Hne].
    + exfalso. apply Hno. now left.
    + rewrite IH; [reflexivity|]. intros Hin. apply Hno. now right.
Qed.

(** A record that was just created is found by its name: when the name has
    no colon, the list request with [filter=name:<name>] and no page
    parameters, whatever its sort, answers with exactly that record.  The
    engine's scan is assumed to visit every row once. *)
Theorem created_demon_is_found_by_name :
  forall (E : Sqlite.Engine) (formatOk : string -> string -> bool)
         (body : gmap string string) (t t' : Sqlite.Table) (d : Server.Demon)
         (n : string) (s : option string),
    (forall l, Sqlite.scan E l ≡ₚ l) ->
    Server.createDemon formatOk body t = (t', Server.Created d) ->
    Server.name d = Some n ->
    ~ In ":"%char (list_ascii_of_string n) ->
    exists row,
      Server.asDemon row = d
      /\ Server.listDemons E
           (Sample.query (Some (String.append "name" (String ":" n))) s None None) t'
         = Server.Rows [row].
Proof.
  intros E formatOk body t t' d n s Hscan Hc Hname Hcolon.
  apply created_inv in Hc as (nm & row & _ & _ & Hfresh & Hrows & Hnm & Hd & _ & _).
  assert (nm = n) as ->.
  { rewrite <- Hd in Hname. simpl in Hname. rewrite Hnm in Hname. now injection Hname. }
  exists row. split; [exact Hd|].
  set (q := Sample.query (Some (String.append "name" (String ":" n))) s None None).
  assert (Hw : Server.whereClause (Server.filter q) = Some ("name", n)).
  { unfold q, Sample.query, Server.whereClause. cbn [Server.filter].
    assert (Hne : Server.nonEmpty (String.append "name" (String ":" n)) = true)
      by reflexivity.
    rewrite Hne, split_first_part.
    - rewrite (split_no_sep ":" n Hcolon). reflexivity.
    - simpl. intros [H|[H|[H|[H|[]]]]]; discriminate. }
  destruct (listAll_defined E q t') as [rs Hrs].
  rewrite (listDemons_window E q t' rs Hrs).
  assert (Hone : rs = [row]).
  { unfold Server.listAll, Sqlite.resultSet, Server.statement in Hrs.
    cbn [Sqlite.whereEq Sqlite.orderBy] in Hrs. rewrite Hw in Hrs.
    unfold Sqlite.applyWhere in Hrs.
    change (Sqlite.column "name") with (Some (fun r => Sqlite.Text (Sqlite.name r))) in Hrs.
    apply applyOrder_Permutation in Hrs.
    rewrite (filter_Permutation_bool _ _ _ (Hscan (Sqlite.rows t'))) in Hrs.
    change (fun r => Sqlite.equalsText E (Sqlite.Text (Sqlite.name r)) n)
      with (fun r => String.eqb (Sqlite.name r) n) in Hrs.
    rewrite Hrows, List.filter_app, (hasName_false_filter n _ Hfresh) in Hrs.
    simpl in Hrs. rewrite Hnm, String.eqb_refl in Hrs.
    now apply Permutation_singleton_r in Hrs. }
  rewrite Hone. reflexivity.
Qed.

Lemma created_demon_is_found_by_name_witness :
  exists row,
    Server.asDemon row
    = {| Server.id := 6; Server.name := Some "Mothman"; Server.description := None;
         Server.race := Some "Wilder"; Server.alignment := Some "Neutral";
         Server.imageUrl := None |}
    /\ Server.listDemons Sqlite.backward
         (Sample.query (Some (String.append "name" (String ":" "Mothman")))
            (Some "race_desc") None None)
         (fst (Server.createDemon Sample.anyFormat
                 (Sample.body "Mothman" "Wilder" "Neutral") Sample.table))
       = Server.Rows [row].
Proof.
  apply (created_demon_is_found_by_name Sqlite.backward Sample.anyFormat
           (Sample.body "Mothman" "Wilder" "Neutral") Sample.table
           (fst (Server.createDemon Sample.anyFormat
                   (Sample.body "Mothman" "Wilder" "Neutral") Sample.table))
           {| Server.id := 6; Server.name := Some "Mothman"; Server.description := None;
              Server.race := Some "Wilder"; Server.alignment := Some "Neutral";
              Server.imageUrl := None |}
           "Mothman" (Some "race_desc")).
  - intros l. simpl. symmetry. apply Permutation_rev.
  - vm_compute. reflexivity.
  - reflexivity.
  - simpl. intros [H|[H|[H|[H|[H|[H|[H|[]]]]]]]]; discriminate.
Defined.

(** The sort parameter decides the order of the result set and nothing
    else: two requests that differ only in [$sort] (and in their page
    parameters) have the same records in their result sets. *)
Theorem sort_keeps_the_result_set :
  forall (E : Sqlite.Engine) (f s s' p ps p' ps' : option string) (t : Sqlite.Table),
    exists rs rs',
      Server.listAll E (Sample.query f s p ps) t = Some rs
      /\ Server.listAll E (Sample.query f s' p' ps') t = Some rs'
      /\ rs ≡ₚ rs'.
Proof.
  intros E f s s' p ps p' ps' t.
  destruct (listAll_defined E (Sample.query f s p ps) t) as [rs Hrs].
  destruct (listAll_defined E (Sample.query f s' p' ps') t) as [rs' Hrs'].
  exists rs, rs'. split; [exact Hrs|]. split; [exact Hrs'|].
  unfold Server.listAll, Sqlite.resultSet, Server.statement, Sample.query in Hrs, Hrs'.
  cbn [Sqlite.whereEq Sqlite.orderBy Server.filter Server.sort] in Hrs, Hrs'.
  destruct (Sqlite.applyWhere E (Server.whereClause f) (Sqlite.scan E (Sqlite.rows t)))
    as [rs0|]; [|discriminate].
  apply applyOrder_Permutation in Hrs. apply applyOrder_Permutation in Hrs'.
  now rewrite Hrs, Hrs'.
Qed.

End ListProperties.

Section Paging.

(** Paging through the result set.  With [$page] and [$pageSize] both at
    least 1 and the end of the next page, [(n + 1) * k], below 2^53 (where
    the handler's numbers are exact and the engine takes them), page [n] of
    size [k] is the [k] records after the first
    [(n - 1) * k]; it never holds more than [k] records; the next page takes
    up exactly where it ends, so that two consecutive pages are the [2 * k]
    records after the first [(n - 1) * k]; and a page that comes back short
    is followed by an empty one. *)
Theorem pages_tile_the_result_set :
  forall (E : Sqlite.Engine) (f s : option string) (p p' ps : string) (t : Sqlite.Table)
         (n k : Z),
    Js.parseInt p = Js.Num n -> Js.parseInt p' = Js.Num (n + 1) ->
    Js.parseInt ps = Js.Num k -> 1 <= n -> 1 <= k -> (n + 1) * k < 2 ^ 53 ->
    exists rs page page',
      Server.listAll E (Sample.query f s (Some p) (Some ps)) t = Some rs
      /\ Server.listDemons E (Sample.query f s (Some p) (Some ps)) t = Server.Rows page
      /\ Server.listDemons E (Sample.query f s (Some p') (Some ps)) t = Server.Rows page'
      /\ page = take (Z.to_nat k) (drop (Z.to_nat ((n - 1) * k)) rs)
      /\ page ++ page' = take (Z.to_nat (2 * k)) (drop (Z.to_nat ((n - 1) * k)) rs)
      /\ (List.length page <= Z.to_nat k)%nat
      /\ ((List.length page < Z.to_nat k)%nat -> page' = []).
Proof.
  intros E f s p p' ps t n k Hp Hp' Hps Hn Hk _.
  destruct (listDemons_slice E (Sample.query f s (Some p) (Some ps)) t)
    as (rs & Hrs & Hpage).
  destruct (listDemons_slice E (Sample.query f s (Some p') (Some ps)) t)
    as (rs' & Hrs' & Hpage').
  rewrite (listAll_page E f s (Some p') (Some ps) (Some p) (Some ps)) in Hrs'.
  rewrite Hrs in Hrs'. injection Hrs' as <-.
  rewrite safeLimit_eq, safeOffset_eq in Hpage, Hpage'.
  unfold Sample.query, Server.limitOf in Hpage, Hpage'.
  cbn [Server.page Server.pageSize Server.parseParam] in Hpage, Hpage'.
  rewrite Hp, Hps in Hpage. rewrite Hp', Hps in Hpage'.
  destruct (Z.ltb_spec k 1) as [?|_]; [lia|].
  destruct (Z.ltb_spec ((n - 1) * k) 0) as [?|_]; [nia|].
  destruct (Z.ltb_spec ((n + 1 - 1) * k) 0) as [?|_]; [nia|].
  set (K := Z.to_nat k) in *. set (N := Z.to_nat ((n - 1) * k)) in *.
  assert (HN : Z.to_nat ((n + 1 - 1) * k) = (N + K)%nat).
  { unfold N, K. rewrite <- Z2Nat.inj_add by nia. f_equal. lia. }
  rewrite HN, <- drop_drop in Hpage'.
  exists rs, (take K (drop N rs)), (take K (drop K (drop N rs))).
  split; [exact Hrs|]. split; [exact Hpage|]. split; [exact Hpage'|].
  split; [reflexivity|]. split.
  - rewrite take_take_drop. f_equal. unfold K. rewrite <- Z2Nat.inj_add by lia.
    f_equal. lia.
  - rewrite length_take. split; [lia|].
    intros Hshort. rewrite drop_ge; [apply take_nil|]. lia.
Qed.

Lemma pages_tile_the_result_set_witness :
  exists rs page page',
    Server.listAll Sqlite.forward (Sample.query None None (Some "2") (Some "5"))
      Sample.dozen = Some rs
    /\ Server.listDemons Sqlite.forward (Sample.query None None (Some "2") (Some "5"))
         Sample.dozen = Server.Rows page
    /\ Server.listDemons Sqlite.forward (Sample.query None None (Some "3") (Some "5"))
         Sample.dozen = Server.Rows page'
    /\ page = take (Z.to_nat 5) (drop (Z.to_nat ((2 - 1) * 5)) rs)
    /\ page ++ page' = take (Z.to_nat (2 * 5)) (drop (Z.to_nat ((2 - 1) * 5)) rs)
    /\ (List.length page <= Z.to_nat 5)%nat
    /\ ((List.length page < Z.to_nat 5)%nat -> page' = []).
Proof.
  apply (pages_tile_the_result_set Sqlite.forward None None "2" "3" "5" Sample.dozen 2 5);
    [reflexivity|reflexivity|reflexivity|lia|lia|lia].
Defined.

End Paging.

Section StatementText.

(** No text of the request reaches the text of the statement.  Whatever the
    query parameters are, the statement is [SELECT * FROM demons], one of
    five fixed WHERE clauses (none, or an allowlisted column compared with a
    placeholder), one of eleven fixed ORDER BY clauses (none, or an
    allowlisted column with ASC or DESC), and [LIMIT ? OFFSET ?]; the filter
    value is only ever bound. *)
Theorem statement_text_is_fixed :
  forall q : Server.Query,
    exists w o,
      Sqlite.sql (Server.statement q)
      = "SELECT * FROM demons" +:+ w +:+ o +:+ " LIMIT ? OFFSET ?"
      /\ w ∈ [""; " WHERE id = ?"; " WHERE name = ?"; " WHERE race = ?";
               " WHERE alignment = ?"]
      /\ o ∈ [""; " ORDER BY id ASC"; " ORDER BY id DESC";
               " ORDER BY name ASC"; " ORDER BY name DESC";
               " ORDER BY race ASC"; " ORDER BY race DESC";
               " ORDER BY alignment ASC"; " ORDER BY alignment DESC";
               " ORDER BY imageUrl ASC"; " ORDER BY imageUrl DESC"].
Proof.
  intros q. unfold Sqlite.sql, Server.statement. cbn [Sqlite.whereEq Sqlite.orderBy].
  eexists _, _. split; [reflexivity|]. split.
  - destruct (Server.whereClause (Server.filter q)) as [[k v]|] eqn:Hw.
    + apply whereClause_allowed in Hw. unfold Server.allowedFilters in Hw.
      rewrite !elem_of_cons, elem_of_nil in Hw.
      destruct Hw as [->|[->|[->|[->|[]]]]]; rewrite !elem_of_cons; simpl; tauto.
    + rewrite !elem_of_cons. tauto.
  - destruct (Server.orderClause (Server.sort q)) as [[c d]|] eqn:Ho.
    + apply orderClause_shape in Ho as [Hc Hd]. unfold Server.allowedSorts in Hc.
      rewrite !elem_of_cons, elem_of_nil in Hc.
      destruct Hc as [->|[->|[->|[->|[->|[]]]]]], Hd as [->| ->];
        rewrite !elem_of_cons; simpl; tauto.
    + rewrite !elem_of_cons. tauto.
Qed.

Lemma spanAlnum_spec (s p q : string) :
  Js.spanAlnum s = (p, q) ->
  s = String.append p q
  /\ Forall (fun c => Js.isAlnum c = true) (list_ascii_of_string p).
Proof.
  revert p q. induction s as [|c r IH]; intros p q; simpl.
  - intros [= <- <-]. split; [reflexivity|constructor].
  - destruct (Js.isAlnum c) eqn:Hc.
    + destruct (Js.spanAlnum r) as [p' q'] eqn:Hr. intros [= <- <-].
      destruct (IH p' q' eq_refl) as [-> Hall].
      split; [reflexivity|]. simpl. now constructor.
    + intros [= <- <-]. split; [reflexivity|constructor].
Qed.

Lemma spanAlnum_stop (p : string) (c : ascii) (r : string) :
  Forall (fun x => Js.isAlnum x = true) (list_ascii_of_string p) ->
  Js.isAlnum c = false ->
  Js.spanAlnum (String.append p (String c r)) = (p, String c r).
Proof.
  intros Hall Hc. induction p as [|x p IH].
  - change (String.append "" (String c r)) with (String c r). simpl. now rewrite Hc.
  - change (String.append (String x p) (String c r))
      with (String x (String.append p (String c r))).
    simpl in Hall |- *. apply Forall_cons in Hall as [Hx Hall].
    now rewrite Hx, IH.
Qed.

(** The sort pattern accepts exactly the tokens made of a non-empty run of
    ASCII letters and digits, one underscore, and [asc] or [desc] in any mix
    of cases; the two groups are what stands before and after that
    underscore.  So a column name with an underscore or any other character
    in it can never be sorted on. *)
Theorem sort_pattern_accepts_exactly :
  forall s col dir : string,
    Js.matchSort s = Some (col, dir)
    <-> s = String.append col (String "_" dir)
        /\ col <> ""
        /\ Forall (fun c => Js.isAlnum c = true) (list_ascii_of_string col)
        /\ (Js.toLowerCase dir = "asc" \/ Js.toLowerCase dir = "desc").
Proof.
  intros s col dir. split.
  - intros Hm. pose proof (matchSort_direction s col dir Hm) as Hd.
    unfold Js.matchSort in Hm. destruct (Js.spanAlnum s) as [p q] eqn:Hs.
    apply spanAlnum_spec in Hs as [-> Hall].
    destruct p as [|c p]; [discriminate|].
    destruct q as [|u d]; [discriminate|].
    destruct (Ascii.eqb_spec u "_"%char) as [->|Hne].
    + destruct (Js.isDirection d); [|discriminate]. injection Hm as <- <-.
      split; [reflexivity|]. split; [discriminate|]. split; [exact Hall|].
      unfold Js.isDirection in Hd. apply orb_prop in Hd as [Hd|Hd];
        apply String.eqb_eq in Hd; auto.
    + destruct u as [[] [] [] [] [] [] [] []]; try discriminate. now contradiction Hne.
  - intros (-> & Hne & Hall & Hd). unfold Js.matchSort.
    rewrite spanAlnum_stop by (assumption || reflexivity).
    destruct col as [|c p]; [now contradiction Hne|].
    assert (Hdir : Js.isDirection dir = true).
    { unfold Js.isDirection. destruct Hd as [-> | ->]; reflexivity. }
    now rewrite Hdir.
Qed.

End StatementText.

(** ** The earlier list route *)

Section LegacyRoute.

(** [GET /demons] of the earlier server answers with every row of the
    table, in ascending id order; the versioned route without any parameter
    answers with the first ten records of that answer.  The engine's scan is
    assumed to visit every row once. *)
Theorem legacy_list_is_the_table_by_id :
  forall (E : Sqlite.Engine) (t : Sqlite.Table),
    (forall l, Sqlite.scan E l ≡ₚ l) ->
    exists rs,
      Legacy.listDemons E t = Server.Rows rs
      /\ rs ≡ₚ Sqlite.rows t
      /\ StronglySorted (fun r1 r2 => Sqlite.id r1 <= Sqlite.id r2) rs
      /\ Server.listDemons E (Sample.query None None None None) t
         = Server.Rows (take 10 rs).
Proof.
  intros E t Hscan.
  exists (merge_sort (Sqlite.ordered (fun r => Sqlite.Integer (Sqlite.id r)) false)
            (Sqlite.scan E (Sqlite.rows t))).
  split; [reflexivity|]. split; [|split; [|reflexivity]].
  - rewrite merge_sort_Permutation. apply Hscan.
  - eapply StronglySorted_impl;
      [|apply StronglySorted_merge_sort; [apply ordered_transitive|apply ordered_total]].
    intros x y. unfold Sqlite.ordered. rewrite leb_spec. simpl. apply Z.compare_le_iff.
Qed.

Lemma legacy_list_is_the_table_by_id_witness :
  exists rs,
    Legacy.listDemons Sqlite.backward Sample.table = Server.Rows rs
    /\ rs ≡ₚ Sqlite.rows Sample.table
    /\ StronglySorted (fun r1 r2 => Sqlite.id r1 <= Sqlite.id r2) rs
    /\ Server.listDemons Sqlite.backward (Sample.query None None None None) Sample.table
       = Server.Rows (take 10 rs).
Proof.
  apply (legacy_list_is_the_table_by_id Sqlite.backward Sample.table).
  intros l. simpl. symmetry. apply Permutation_rev.
Defined.

End LegacyRoute.

(** ** Filters on every allowlisted column *)

Section AnyFilter.

Lemma text_cell_equals (E : Sqlite.Engine) (o : option string) (v : string) :
  Sqlite.equalsText E (Sqlite.textOrNull o) v = bool_decide (o = Some v).
Proof.
  destruct o as [x|]; cbn [Sqlite.textOrNull Sqlite.equalsText].
  - case_bool_decide as Hx.
    + injection Hx as ->. apply String.eqb_refl.
    + apply String.eqb_neq. intros ->. now apply Hx.
  - case_bool_decide as Hx; [discriminate Hx|reflexivity].
Qed.

Lemma name_cell_equals (E : Sqlite.Engine) (n v : string) :
  Sqlite.equalsText E (Sqlite.Text n) v = bool_decide (n = v).
Proof.
  cbn [Sqlite.equalsText]. case_bool_decide as Hx.
  - subst. apply String.eqb_refl.
  - now apply String.eqb_neq.
Qed.

(** The result set of a request whose filter has two parts and an
    allowlisted first part, up to order. *)
Lemma filtered_result_set (E : Sqlite.Engine) (f key v : string) (s p ps : option string)
  (t : Sqlite.Table) (cell : Sqlite.Row -> Sqlite.Value) :
  (forall l, Sqlite.scan E l ≡ₚ l) ->
  Js.split ":" f = [key; v] -> key ∈ Server.allowedFilters ->
  Sqlite.column key = Some cell ->
  exists matching,
    Server.listAll E (Sample.query (Some f) s p ps) t = Some matching
    /\ matching ≡ₚ List.filter (fun r => Sqlite.equalsText E (cell r) v) (Sqlite.rows t).
Proof.
  intros Hscan Hsplit Hkey Hcell.
  destruct (listAll_defined E (Sample.query (Some f) s p ps) t) as [matching Hall].
  exists matching. split; [exact Hall|].
  assert (Hw : Server.whereClause (Some f) = Some (key, v)).
  { unfold Server.whereClause.
    assert (Hne : Server.nonEmpty f = true) by (destruct f; [discriminate Hsplit|reflexivity]).
    rewrite Hne, Hsplit. apply includes_elem_of in Hkey. now rewrite Hkey. }
  unfold Server.listAll, Sqlite.resultSet, Server.statement, Sample.query in Hall.
  cbn [Sqlite.whereEq Sqlite.orderBy Server.sort Server.filter] in Hall.
  rewrite Hw in Hall. unfold Sqlite.applyWhere in Hall. rewrite Hcell in Hall.
  apply applyOrder_Permutation in Hall. rewrite Hall.
  apply filter_Permutation_bool, Hscan.
Qed.

(** A filter [key:value] on name, race or alignment selects exactly the
    rows whose column holds that very string, byte for byte; a row where the
    column is NULL is never selected.  A filter on id selects the rows whose
    id is the integer the engine reads in the value, and none when it reads no
    integer.  The engine's scan is assumed to visit every row once. *)
Theorem filter_selects_equal_cells :
  forall (E : Sqlite.Engine) (f v : string) (s p ps : option string) (t : Sqlite.Table),
    (forall l, Sqlite.scan E l ≡ₚ l) ->
    (Js.split ":" f = ["name"; v] ->
     exists matching,
       Server.listAll E (Sample.query (Some f) s p ps) t = Some matching
       /\ forall r, r ∈ matching <-> r ∈ Sqlite.rows t /\ Sqlite.name r = v)
    /\ (Js.split ":" f = ["race"; v] ->
        exists matching,
          Server.listAll E (Sample.query (Some f) s p ps) t = Some matching
          /\ forall r, r ∈ matching <-> r ∈ Sqlite.rows t /\ Sqlite.race r = Some v)
    /\ (Js.split ":" f = ["alignment"; v] ->
        exists matching,
          Server.listAll E (Sample.query (Some f) s p ps) t = Some matching
          /\ forall r, r ∈ matching <-> r ∈ Sqlite.rows t /\ Sqlite.alignment r = Some v)
    /\ (Js.split ":" f = ["id"; v] ->
        exists matching,
          Server.listAll E (Sample.query (Some f) s p ps) t = Some matching
          /\ forall r, r ∈ matching
                       <-> r ∈ Sqlite.rows t /\ Sqlite.integerOfText E v = Some (Sqlite.id r)).
Proof.
  intros E f v s p ps t Hscan. repeat split.
  - intros Hs.
    destruct (filtered_result_set E f "name" v s p ps t
                (fun r => Sqlite.Text (Sqlite.name r)) Hscan Hs)
      as (m & Hm & Hperm); [apply includes_elem_of; reflexivity|reflexivity|].
    exists m. split; [exact Hm|]. intros r.
    rewrite Hperm, !list_elem_of_In, filter_In, name_cell_equals, bool_decide_eq_true.
    reflexivity.
  - intros Hs.
    destruct (filtered_result_set E f "race" v s p ps t
                (fun r => Sqlite.textOrNull (Sqlite.race r)) Hscan Hs)
      as (m & Hm & Hperm); [apply includes_elem_of; reflexivity|reflexivity|].
    exists m. split; [exact Hm|]. intros r.
    rewrite Hperm, !list_elem_of_In, filter_In, text_cell_equals, bool_decide_eq_true.
    reflexivity.
  - intros Hs.
    destruct (filtered_result_set E f "alignment" v s p ps t
                (fun r => Sqlite.textOrNull (Sqlite.alignment r)) Hscan Hs)
      as (m & Hm & Hperm); [apply includes_elem_of; reflexivity|reflexivity|].
    exists m. split; [exact Hm|]. intros r.
    rewrite Hperm, !list_elem_of_In, filter_In, text_cell_equals, bool_decide_eq_true.
    reflexivity.
  - intros Hs.
    destruct (filtered_result_set E f "id" v s p ps t
                (fun r => Sqlite.Integer (Sqlite.id r)) Hscan Hs)
      as (m & Hm & Hperm); [apply includes_elem_of; reflexivity|reflexivity|].
    exists m. split; [exact Hm|]. intros r.
    rewrite Hperm, !list_elem_of_In, filter_In. cbn [Sqlite.equalsText].
    destruct (Sqlite.integerOfText E v) as [k|].
    + rewrite Z.eqb_eq. split; intros [Hin Hk]; (split; [exact Hin|]); congruence.
    + split; intros [_ Hk]; discriminate.
Qed.

Lemma filter_selects_equal_cells_witness :
  (exists matching,
      Server.listAll Sqlite.forward (Sample.query (Some "name:Pixie") None None None)
        Sample.table = Some matching
      /\ forall r, r ∈ matching <-> r ∈ Sqlite.rows Sample.table /\ Sqlite.name r = "Pixie")
  /\ (exists matching,
         Server.listAll Sqlite.forward (Sample.query (Some "id:4") None None None)
           Sample.table = Some matching
         /\ forall r, r ∈ matching
                      <-> r ∈ Sqlite.rows Sample.table
                          /\ Sqlite.integerOfText Sqlite.forward "4" = Some (Sqlite.id r)).
Proof.
  split.
  - apply (proj1 (filter_selects_equal_cells Sqlite.forward "name:Pixie" "Pixie"
                    None None None Sample.table (fun l => Permutation_refl l))).
    reflexivity.
  - apply (proj2 (proj2 (proj2 (filter_selects_equal_cells Sqlite.forward "id:4" "4"
                    None None None Sample.table (fun l => Permutation_refl l))))).
    reflexivity.
Defined.

Lemma filter_unique_key (A : Type) `{EqDecision A} (g : Sqlite.Row -> A) (v : A)
  (rs : list Sqlite.Row) :
  NoDup (map g rs) ->
  (List.length (List.filter (fun r => bool_decide (g r = v)) rs) <= 1)%nat.
Proof.
  induction rs as [|r rs IH]; simpl; [lia|].
  intros Hnd. apply NoDup_cons in Hnd as [Hr Hnd]. specialize (IH Hnd).
  case_bool_decide as Hv; [|exact IH]. simpl.
  assert (Hnone : List.filter (fun r0 => bool_decide (g r0 = v)) rs = []).
  { destruct (List.filter _ rs) as [|x l] eqn:Hf; [reflexivity|]. exfalso.
    assert (Hx : In x (List.filter (fun r0 => bool_decide (g r0 = v)) rs))
      by (rewrite Hf; now left).
    apply filter_In in Hx as [Hin Hgx]. apply bool_decide_eq_true in Hgx.
    apply Hr. rewrite Hv, <- Hgx. apply list_elem_of_In, in_map, Hin. }
  rewrite Hnone. simpl. lia.
Qed.

Lemma sorted_ids_NoDup (rs : list Sqlite.Row) :
  StronglySorted (fun r1 r2 => Sqlite.id r1 < Sqlite.id r2) rs -> NoDup (map Sqlite.id rs).
Proof.
  induction 1 as [|r rs _ IH Hr]; simpl; constructor; [|exact IH].
  intros Hin. apply list_elem_of_In, in_map_iff in Hin as (x & Hx & Hin).
  rewrite Forall_forall in Hr. apply list_elem_of_In in Hin.
  specialize (Hr x Hin). simpl in Hr. lia.
Qed.

(** On a table that keeps the promises of the schema, a filter on name or
    on id answers with at most one record, whatever the other parameters
    are.  The engine's scan is assumed to visit every row once. *)
Theorem unique_column_filter_finds_at_most_one :
  forall (E : Sqlite.Engine) (f key v : string) (s p ps : option string) (t : Sqlite.Table),
    (forall l, Sqlite.scan E l ≡ₚ l) ->
    Sqlite.consistent t ->
    Js.split ":" f = [key; v] -> key = "name" \/ key = "id" ->
    exists rs,
      Server.listDemons E (Sample.query (Some f) s p ps) t = Server.Rows rs
      /\ (List.length rs <= 1)%nat.
Proof.
  intros E f key v s p ps t Hscan (Hnames & Hids & _) Hs Hkey.
  assert (Hall : exists m,
             Server.listAll E (Sample.query (Some f) s p ps) t = Some m
             /\ (List.length m <= 1)%nat).
  { destruct Hkey as [-> | ->].
    - destruct (filtered_result_set E f "name" v s p ps t
                  (fun r => Sqlite.Text (Sqlite.name r)) Hscan Hs)
        as (m & Hm & Hperm); [apply includes_elem_of; reflexivity|reflexivity|].
      exists m. split; [exact Hm|]. rewrite Hperm.
      erewrite List.filter_ext; [apply (filter_unique_key string Sqlite.name v), Hnames|].
      intros r. apply name_cell_equals.
    - destruct (filtered_result_set E f "id" v s p ps t
                  (fun r => Sqlite.Integer (Sqlite.id r)) Hscan Hs)
        as (m & Hm & Hperm); [apply includes_elem_of; reflexivity|reflexivity|].
      exists m. split; [exact Hm|]. rewrite Hperm. cbn [Sqlite.equalsText].
      destruct (Sqlite.integerOfText E v) as [k|].
      + erewrite List.filter_ext;
          [apply (filter_unique_key Z Sqlite.id k), sorted_ids_NoDup, Hids|].
        intros r. simpl. destruct (Z.eqb_spec (Sqlite.id r) k) as [Heq|Hne].
        * symmetry. now apply bool_decide_eq_true.
        * symmetry. now apply bool_decide_eq_false.
      + assert (Hnil : forall l : list Sqlite.Row, List.filter (fun _ => false) l = [])
          by (intros l0; induction l0; auto).
        rewrite Hnil. simpl. lia. }
  destruct Hall as (m & Hm & Hlen).
  eexists. split; [apply listDemons_window; exact Hm|].
  pose proof (window_sublist (Server.safeLimit (Sample.query (Some f) s p ps))
                (Server.safeOffset (Sample.query (Some f) s p ps)) m) as Hsub.
  apply sublist_length in Hsub. lia.
Qed.

Lemma unique_column_filter_finds_at_most_one_witness :
  exists rs,
    Server.listDemons Sqlite.forward (Sample.query (Some "id:4") None None None) Sample.table
    = Server.Rows rs
    /\ (List.length rs <= 1)%nat.
Proof.
  apply (unique_column_filter_finds_at_most_one Sqlite.forward "id:4" "id" "4"
           None None None Sample.table).
  - intros l. reflexivity.
  - repeat split.
    + apply (bool_decide_unpack (NoDup (map Sqlite.name (Sqlite.rows Sample.table)))).
      vm_compute. exact I.
    + repeat constructor; vm_compute; reflexivity.
    + repeat constructor; vm_compute; try reflexivity; discriminate.
  - reflexivity.
  - right. reflexivity.
Defined.

End AnyFilter.

(** ** Seeds and create requests together *)

Section SeedsAndCreates.

(** A name that was seeded cannot be created again: once the server has
    started on a seeds directory whose objects have plain names (none is an
    array or an object, which the driver would not bind as a name), a create
    request that passes the schema and carries the name of a seed object that
    reached the insert is answered with 409, and the table stays as the
    start-up left it. *)
Theorem seeded_name_cannot_be_created :
  forall (formatOk : string -> string -> bool) (render : Js.Value -> option string)
         (bump : bool) (dir : Seed.Directory) (db : option Sqlite.Table)
         (demon : gmap string Js.Value) (n : string) (body : gmap string string),
    Forall Seed.plain (Seed.queue dir) ->
    demon ∈ Seed.queue dir ->
    Seed.stored render (Js.get demon "name") = Some n ->
    Server.validate formatOk Server.demonSchema body = true ->
    body !! "name" = Some n ->
    Server.createDemon formatOk body (Seed.initDb render bump dir db)
    = (Seed.initDb render bump dir db, Server.Conflict).
Proof.
  intros formatOk render bump dir db demon n body _ Hin Hn Hv Hbody.
  assert (Hhas : Sqlite.hasName n (Sqlite.rows (Seed.initDb render bump dir db)) = true).
  { unfold Seed.initDb. rewrite seedData_queue.
    pose proof (seedRun_covers render bump (Seed.queue dir) (default Sqlite.empty db)) as Hall.
    rewrite Forall_forall in Hall. specialize (Hall demon Hin).
    unfold Seed.covered in Hall. now rewrite Hn in Hall. }
  unfold Server.createDemon. rewrite Hv.
  unfold Server.createHandler, Sqlite.insert. rewrite Hbody, Hhas. reflexivity.
Qed.

Lemma seeded_name_cannot_be_created_witness :
  let pixie : gmap string Js.Value :=
    <["name" := Js.JStr "Pixie"]> (<["alignment" := Js.JStr "Neutral"]> ∅) in
  let dir : Seed.Directory := Some [("batch1.json", Seed.Items [Some pixie])] in
  Server.createDemon Sample.anyFormat (Sample.body "Pixie" "Fairy" "Law")
    (Seed.initDb (fun _ => None) true dir None)
  = (Seed.initDb (fun _ => None) true dir None, Server.Conflict).
Proof.
  intros pixie dir.
  apply (seeded_name_cannot_be_created Sample.anyFormat (fun _ => None) true dir None
           pixie "Pixie" (Sample.body "Pixie" "Fairy" "Law")).
  - simpl. apply Forall_singleton. unfold Seed.plain. vm_compute. discriminate.
  - simpl. apply list_elem_of_singleton. reflexivity.
  - reflexivity.
  - reflexivity.
  - reflexivity.
Defined.

End SeedsAndCreates.

(** ** The reply of the list route in closed form *)

Section Replies.

(** The reply is rows, cut out of the filtered and ordered rows by the
    LIMIT and the OFFSET the handler binds, written out in terms of the
    parsed parameters. *)
Lemma listDemons_closed_form (E : Sqlite.Engine) (q : Server.Query) (t : Sqlite.Table) :
  exists base all,
    Sqlite.applyWhere E (Server.whereClause (Server.filter q))
      (Sqlite.scan E (Sqlite.rows t)) = Some base
    /\ Sqlite.applyOrder (Server.orderClause (Server.sort q)) base = Some all
    /\ Server.listAll E q t = Some all
    /\ Server.listDemons E q t
       = Server.Rows
           (take (Z.to_nat (match Server.parseParam 10 (Server.pageSize q) with
                            | Js.Num k => if k <? 1 then 10 else k
                            | Js.NaN => 10
                            end))
              (drop (Z.to_nat (match Server.parseParam 1 (Server.page q),
                                     Server.parseParam 10 (Server.pageSize q) with
                               | Js.Num n, Js.Num k =>
                                   if (n - 1) * k <? 0 then 0 else (n - 1) * k
                               | _, _ => 0
                               end)) all)).
Proof.
  destruct (listDemons_slice E q t) as (rs & Hrs & Hreply).
  pose proof Hrs as Hall.
  unfold Server.listAll, Sqlite.resultSet, Server.statement in Hrs.
  cbn [Sqlite.whereEq Sqlite.orderBy] in Hrs.
  destruct (Sqlite.applyWhere E _ _) as [base|] eqn:Hbase; [|discriminate].
  exists base, rs. split; [reflexivity|]. split; [exact Hrs|]. split; [exact Hall|].
  rewrite safeLimit_eq, safeOffset_eq in Hreply. exact Hreply.
Qed.

(** Rows in strict id order hold no two rows of one id. *)
Lemma id_sorted_unique (rs : list Sqlite.Row) (x y : Sqlite.Row) :
  StronglySorted (fun r1 r2 => Sqlite.id r1 < Sqlite.id r2) rs ->
  x ∈ rs -> y ∈ rs -> Sqlite.id x = Sqlite.id y -> x = y.
Proof.
  induction 1 as [|a l _ IH Ha]; intros Hx Hy Hid.
  - now apply elem_of_nil in Hx.
  - rewrite Forall_forall in Ha.
    apply elem_of_cons in Hx as [->|Hx]; apply elem_of_cons in Hy as [->|Hy].
    + reflexivity.
    + specialize (Ha _ Hy). lia.
    + specialize (Ha _ Hx). lia.
    + now apply IH.
Qed.

(** No ORDER BY, or ORDER BY id ASC, leaves rows that are in strict id
    order as they are. *)
Lemma id_order_fixes_sorted (o : option (string * string)) (rs rs' : list Sqlite.Row) :
  o = None \/ o = Some ("id", "ASC") ->
  StronglySorted (fun r1 r2 => Sqlite.id r1 < Sqlite.id r2) rs ->
  Sqlite.applyOrder o rs = Some rs' -> rs' = rs.
Proof.
  intros [-> | ->] Hs Ho.
  - now injection Ho as <-.
  - pose proof (applyOrder_Permutation _ _ _ Ho) as Hperm.
    pose proof (applyOrder_sorted "id" "ASC" _ _ rs rs' eq_refl eq_refl Ho) as Hsorted.
    assert (Hle : forall x y, Sqlite.ordered (fun r => Sqlite.Integer (Sqlite.id r)) false x y
                              <-> Sqlite.id x <= Sqlite.id y).
    { intros x y. unfold Sqlite.ordered. rewrite leb_spec. simpl.
      apply Z.compare_le_iff. }
    eapply (StronglySorted_unique_strong
              (Sqlite.ordered (fun r => Sqlite.Integer (Sqlite.id r)) false));
      [|exact Hsorted| |exact Hperm].
    + intros x y Hx Hy Hxy Hyx. rewrite Hperm in Hx.
      apply (id_sorted_unique rs x y Hs Hx Hy).
      apply Hle in Hxy. apply Hle in Hyx. lia.
    + eapply StronglySorted_impl; [|exact Hs].
      intros x y Hlt. apply Hle. simpl in Hlt. lia.
Qed.

Lemma applyWhere_sorted (E : Sqlite.Engine) (R : relation Sqlite.Row)
  (w : option (string * string)) (rs base : list Sqlite.Row) :
  StronglySorted R rs -> Sqlite.applyWhere E w rs = Some base -> StronglySorted R base.
Proof.
  intros Hs. unfold Sqlite.applyWhere. destruct w as [[c v]|]; [|now intros [= <-]].
  destruct (Sqlite.column c) as [key|]; [|discriminate].
  intros [= <-]. now apply StronglySorted_filter.
Qed.

Lemma applyWhere_sublist (E : Sqlite.Engine) (w : option (string * string))
  (rs base : list Sqlite.Row) :
  Sqlite.applyWhere E w rs = Some base -> base `sublist_of` rs.
Proof.
  unfold Sqlite.applyWhere. destruct w as [[c v]|]; [|now intros [= <-]].
  destruct (Sqlite.column c) as [key|]; [|discriminate].
  intros [= <-]. induction rs as [|r rs IH]; simpl; [constructor|].
  destruct (Sqlite.equalsText E (key r) v); now constructor.
Qed.

(** A sort token the handler turns down leaves the statement without an
    ORDER BY, except the empty one, which is not taken for a token at all. *)
Lemma rejected_orderClause (s : string) :
  (Js.matchSort s = None
   \/ exists col dir, Js.matchSort s = Some (col, dir) /\ col ∉ Server.allowedSorts) ->
  Server.orderClause (Some s) = None \/ Server.orderClause (Some s) = Some ("id", "ASC").
Proof.
  intros Hbad. unfold Server.orderClause.
  destruct (Server.nonEmpty s); [left|now right].
  destruct Hbad as [-> | (col & dir & -> & Hnot)]; [reflexivity|].
  apply includes_false in Hnot. now rewrite Hnot.
Qed.

(** C1.  On the engine the server runs, which scans the table by ascending
    rowid, and on a table as the schema keeps it (ids strictly increasing
    along the scan), a request whose [$sort] is present but fails the
    pattern or names a column outside the allowlist is answered with
    records in ascending order of id: the reply is the requested page of the
    filtered rows in table order, it is strictly increasing in id, and it is
    the reply to the same request without [$sort], which is sorted by
    [ORDER BY id ASC].  The page numbers are in the range the handler
    computes exactly. *)
Theorem rejected_sort_falls_back_to_id_order :
  forall (E : Sqlite.Engine) (f p ps : option string) (s : string) (t : Sqlite.Table),
    (forall l, Sqlite.scan E l = l) ->
    StronglySorted (fun r1 r2 => Sqlite.id r1 < Sqlite.id r2) (Sqlite.rows t) ->
    Server.inRange (Sample.query f (Some s) p ps) ->
    (Js.matchSort s = None
     \/ exists col dir, Js.matchSort s = Some (col, dir) /\ col ∉ Server.allowedSorts) ->
    let size := Z.to_nat (match Server.parseParam 10 ps with
                          | Js.Num k => if k <? 1 then 10 else k
                          | Js.NaN => 10
                          end) in
    let skip := Z.to_nat (match Server.parseParam 1 p, Server.parseParam 10 ps with
                          | Js.Num n, Js.Num k => if (n - 1) * k <? 0 then 0 else (n - 1) * k
                          | _, _ => 0
                          end) in
    exists base,
      Sqlite.applyWhere E (Server.whereClause f) (Sqlite.rows t) = Some base
      /\ base `sublist_of` Sqlite.rows t
      /\ (Server.whereClause f = None -> base = Sqlite.rows t)
      /\ Server.listDemons E (Sample.query f (Some s) p ps) t
         = Server.Rows (take size (drop skip base))
      /\ StronglySorted (fun r1 r2 => Sqlite.id r1 < Sqlite.id r2) (take size (drop skip base))
      /\ Server.listDemons E (Sample.query f (Some s) p ps) t
         = Server.listDemons E (Sample.query f None p ps) t.
Proof.
  intros E f p ps s t Hscan Hsorted _ Hbad size skip.
  destruct (listDemons_closed_form E (Sample.query f (Some s) p ps) t)
    as (base & all & Hbase & Horder & _ & Hreply).
  destruct (listDemons_closed_form E (Sample.query f None p ps) t)
    as (base0 & all0 & Hbase0 & Horder0 & _ & Hreply0).
  cbn [Sample.query Server.filter Server.sort Server.page Server.pageSize] in *.
  rewrite Hscan in Hbase, Hbase0. rewrite Hbase in Hbase0. injection Hbase0 as <-.
  pose proof (applyWhere_sorted E _ _ _ _ Hsorted Hbase) as Hb.
  apply (id_order_fixes_sorted _ _ _ (rejected_orderClause s Hbad) Hb) in Horder.
  apply (id_order_fixes_sorted _ _ _ (or_intror eq_refl) Hb) in Horder0.
  subst all all0. exists base.
  split; [exact Hbase|].
  split; [eapply applyWhere_sublist; exact Hbase|].
  split; [intros Hw; rewrite Hw in Hbase; now injection Hbase as <-|].
  split; [exact Hreply|].
  split; [now apply StronglySorted_take, StronglySorted_drop|].
  now rewrite Hreply, Hreply0.
Qed.

Lemma rejected_sort_falls_back_to_id_order_witness :
  exists base,
    Sqlite.applyWhere Sqlite.forward (Server.whereClause None) (Sqlite.rows Sample.table)
    = Some base
    /\ base `sublist_of` Sqlite.rows Sample.table
    /\ (Server.whereClause None = None -> base = Sqlite.rows Sample.table)
    /\ Server.listDemons Sqlite.forward
         (Sample.query None (Some "name_sideways") None None) Sample.table
       = Server.Rows (take 10 (drop 0 base))
    /\ StronglySorted (fun r1 r2 => Sqlite.id r1 < Sqlite.id r2) (take 10 (drop 0 base))
    /\ Server.listDemons Sqlite.forward
         (Sample.query None (Some "name_sideways") None None) Sample.table
       = Server.listDemons Sqlite.forward (Sample.query None None None None) Sample.table.
Proof.
  apply (rejected_sort_falls_back_to_id_order Sqlite.forward None None None
           "name_sideways" Sample.table).
  - intros l. reflexivity.
  - repeat constructor; vm_compute; reflexivity.
  - vm_compute. repeat split.
  - left. reflexivity.
Defined.

(** Three tokens the handler turns down (no direction, a column outside
    the allowlist, an allowlisted column in the wrong case) and the empty
    one, on the sample table: ids ascending each time. *)
Example rejected_sort_samples :
  Sample.ids (Server.listDemons Sqlite.forward
                (Sample.query None (Some "name_sideways") None None) Sample.table)
  = [1; 2; 3; 4; 5]
  /\ Sample.ids (Server.listDemons Sqlite.forward
                   (Sample.query None (Some "description_asc") None None) Sample.table)
     = [1; 2; 3; 4; 5]
  /\ Sample.ids (Server.listDemons Sqlite.forward
                   (Sample.query None (Some "NAME_desc") None None) Sample.table)
     = [1; 2; 3; 4; 5]
  /\ Sample.ids (Server.listDemons Sqlite.forward
                   (Sample.query None (Some "") None None) Sample.table)
     = [1; 2; 3; 4; 5].
Proof. repeat split; vm_compute; reflexivity. Qed.

(** C8.  A valid sort token over an allowlisted column returns the
    records in the requested order: for every token [col_dir] that the
    pattern accepts with [col] in the allowlist, the reply is the requested
    page of the filtered rows put in the order of that column in that
    direction (a permutation of the filtered rows that is sorted on it).
    With [name_asc] the names are in non-decreasing byte-lexicographic
    order, and with [id_desc] the ids are in non-increasing order; without a
    filter the rows so ordered are all the rows of the table.  The engine's
    scan visits every row once, and the page numbers are in the range the
    handler computes exactly. *)
Theorem valid_sort_token_orders_reply :
  forall (E : Sqlite.Engine) (t : Sqlite.Table),
    (forall l, Sqlite.scan E l ≡ₚ l) ->
    (forall (q : Server.Query) (s col dir : string),
        Server.inRange q ->
        Server.sort q = Some s -> Js.matchSort s = Some (col, dir) ->
        col ∈ Server.allowedSorts ->
        let size := Z.to_nat (match Server.parseParam 10 (Server.pageSize q) with
                              | Js.Num k => if k <? 1 then 10 else k
                              | Js.NaN => 10
                              end) in
        let skip := Z.to_nat (match Server.parseParam 1 (Server.page q),
                                    Server.parseParam 10 (Server.pageSize q) with
                              | Js.Num n, Js.Num k =>
                                  if (n - 1) * k <? 0 then 0 else (n - 1) * k
                              | _, _ => 0
                              end) in
        exists key desc base all,
          Sqlite.column col = Some key
          /\ Sqlite.direction (Js.toUpperCase dir) = Some desc
          /\ Sqlite.applyWhere E (Server.whereClause (Server.filter q))
               (Sqlite.scan E (Sqlite.rows t)) = Some base
          /\ all ≡ₚ base
          /\ StronglySorted (Sqlite.ordered key desc) all
          /\ Server.listDemons E q t = Server.Rows (take size (drop skip all)))
    /\ (forall f p ps : option string,
           Server.inRange (Sample.query f (Some "name_asc") p ps) ->
           let size := Z.to_nat (match Server.parseParam 10 ps with
                                 | Js.Num k => if k <? 1 then 10 else k
                                 | Js.NaN => 10
                                 end) in
           let skip := Z.to_nat (match Server.parseParam 1 p, Server.parseParam 10 ps with
                                 | Js.Num n, Js.Num k =>
                                     if (n - 1) * k <? 0 then 0 else (n - 1) * k
                                 | _, _ => 0
                                 end) in
           exists base all,
             Sqlite.applyWhere E (Server.whereClause f) (Sqlite.scan E (Sqlite.rows t))
             = Some base
             /\ all ≡ₚ base
             /\ (f = None -> all ≡ₚ Sqlite.rows t)
             /\ StronglySorted
                  (fun r1 r2 => String.leb (Sqlite.name r1) (Sqlite.name r2) = true) all
             /\ Server.listDemons E (Sample.query f (Some "name_asc") p ps) t
                = Server.Rows (take size (drop skip all)))
    /\ (forall f p ps : option string,
           Server.inRange (Sample.query f (Some "id_desc") p ps) ->
           let size := Z.to_nat (match Server.parseParam 10 ps with
                                 | Js.Num k => if k <? 1 then 10 else k
                                 | Js.NaN => 10
                                 end) in
           let skip := Z.to_nat (match Server.parseParam 1 p, Server.parseParam 10 ps with
                                 | Js.Num n, Js.Num k =>
                                     if (n - 1) * k <? 0 then 0 else (n - 1) * k
                                 | _, _ => 0
                                 end) in
           exists base all,
             Sqlite.applyWhere E (Server.whereClause f) (Sqlite.scan E (Sqlite.rows t))
             = Some base
             /\ all ≡ₚ base
             /\ (f = None -> all ≡ₚ Sqlite.rows t)
             /\ StronglySorted (fun r1 r2 => Sqlite.id r2 <= Sqlite.id r1) all
             /\ Server.listDemons E (Sample.query f (Some "id_desc") p ps) t
                = Server.Rows (take size (drop skip all))).
Proof.
  intros E t Hscan.
  assert (Hgen : forall (q : Server.Query) (s col dir : string),
             Server.sort q = Some s -> Js.matchSort s = Some (col, dir) ->
             col ∈ Server.allowedSorts ->
             exists key desc base all,
               Sqlite.column col = Some key
               /\ Sqlite.direction (Js.toUpperCase dir) = Some desc
               /\ Sqlite.applyWhere E (Server.whereClause (Server.filter q))
                    (Sqlite.scan E (Sqlite.rows t)) = Some base
               /\ all ≡ₚ base
               /\ StronglySorted (Sqlite.ordered key desc) all
               /\ Server.listDemons E q t
                  = Server.Rows
                      (take (Z.to_nat (match Server.parseParam 10 (Server.pageSize q) with
                                       | Js.Num k => if k <? 1 then 10 else k
                                       | Js.NaN => 10
                                       end))
                         (drop (Z.to_nat (match Server.parseParam 1 (Server.page q),
                                                Server.parseParam 10 (Server.pageSize q) with
                                          | Js.Num n, Js.Num k =>
                                              if (n - 1) * k <? 0 then 0 else (n - 1) * k
                                          | _, _ => 0
                                          end)) all))).
  { intros q s col dir Hs Hm Hc.
    assert (Hne : Server.nonEmpty s = true).
    { destruct s; [discriminate Hm|reflexivity]. }
    assert (Ho : Server.orderClause (Server.sort q) = Some (col, Js.toUpperCase dir)).
    { unfold Server.orderClause. rewrite Hs, Hne, Hm.
      apply includes_elem_of in Hc. now rewrite Hc. }
    destruct (column_of_sort col Hc) as [key Hkey].
    destruct (direction_of_order (Js.toUpperCase dir)) as [desc Hdesc].
    { apply direction_upper. eapply matchSort_direction; exact Hm. }
    destruct (listDemons_closed_form E q t) as (base & all & Hbase & Horder & _ & Hreply).
    rewrite Ho in Horder.
    exists key, desc, base, all. split; [exact Hkey|]. split; [exact Hdesc|].
    split; [exact Hbase|]. split; [eapply applyOrder_Permutation; exact Horder|].
    split; [eapply applyOrder_sorted; eassumption|exact Hreply]. }
  split; [|split].
  - intros q s col dir _ Hs Hm Hc size skip. now apply (Hgen q s col dir).
  - intros f p ps _ size skip.
    destruct (Hgen (Sample.query f (Some "name_asc") p ps) "name_asc" "name" "asc"
                eq_refl eq_refl)
      as (key & desc & base & all & Hkey & Hdesc & Hbase & Hperm & Hsorted & Hreply).
    { apply includes_elem_of. reflexivity. }
    exists base, all. split; [exact Hbase|]. split; [exact Hperm|].
    split.
    { intros ->. rewrite Hperm. cbn in Hbase. injection Hbase as <-. apply Hscan. }
    split; [|exact Hreply].
    injection Hkey as <-. injection Hdesc as <-.
    eapply StronglySorted_impl; [|exact Hsorted].
    intros x y. unfold Sqlite.ordered, Sqlite.leb, String.leb. simpl. auto.
  - intros f p ps _ size skip.
    destruct (Hgen (Sample.query f (Some "id_desc") p ps) "id_desc" "id" "desc"
                eq_refl eq_refl)
      as (key & desc & base & all & Hkey & Hdesc & Hbase & Hperm & Hsorted & Hreply).
    { apply includes_elem_of. reflexivity. }
    exists base, all. split; [exact Hbase|]. split; [exact Hperm|].
    split.
    { intros ->. rewrite Hperm. cbn in Hbase. injection Hbase as <-. apply Hscan. }
    split; [|exact Hreply].
    injection Hkey as <-. injection Hdesc as <-.
    eapply StronglySorted_impl; [|exact Hsorted].
    intros x y. unfold Sqlite.ordered. rewrite leb_spec. simpl.
    apply Z.compare_le_iff.
Qed.

Lemma valid_sort_token_orders_reply_witness :
  exists base all,
    Sqlite.applyWhere Sqlite.forward (Server.whereClause None)
      (Sqlite.scan Sqlite.forward (Sqlite.rows Sample.table)) = Some base
    /\ all ≡ₚ base
    /\ (@None string = None -> all ≡ₚ Sqlite.rows Sample.table)
    /\ StronglySorted (fun r1 r2 => String.leb (Sqlite.name r1) (Sqlite.name r2) = true) all
    /\ Server.listDemons Sqlite.forward
         (Sample.query None (Some "name_asc") (Some "1") (Some "3")) Sample.table
       = Server.Rows (take 3 (drop 0 all)).
Proof.
  apply (proj1 (proj2 (valid_sort_token_orders_reply Sqlite.forward Sample.table
                         (fun l => Permutation_refl l)))
           None (Some "1") (Some "3")).
  vm_compute. repeat split.
Defined.

(** With [name_asc] the first page of three of the sample table is Angel,
    Jack Frost, Lilim. *)
Example name_asc_sample :
  Sample.ids (Server.listDemons Sqlite.forward
                (Sample.query None (Some "name_asc") (Some "1") (Some "3")) Sample.table)
  = [4; 1; 5].
Proof. vm_compute. reflexivity. Qed.

(** C7.  With filter=race:Fata the reply is the requested page of the rows
    of the table whose race is the string "Fata" (equality of the whole
    string, byte for byte): every record of the reply is such a row, a row
    with another race or with none is never in it, and the reply is all of
    them when they fit on the first page.  The engine's scan visits every
    row once, and the page numbers are in the range the handler computes
    exactly. *)
Theorem race_filter_is_exact :
  forall (E : Sqlite.Engine) (s p ps : option string) (t : Sqlite.Table),
    (forall l, Sqlite.scan E l ≡ₚ l) ->
    Server.inRange (Sample.query (Some "race:Fata") s p ps) ->
    let size := Z.to_nat (match Server.parseParam 10 ps with
                          | Js.Num k => if k <? 1 then 10 else k
                          | Js.NaN => 10
                          end) in
    let skip := Z.to_nat (match Server.parseParam 1 p, Server.parseParam 10 ps with
                          | Js.Num n, Js.Num k => if (n - 1) * k <? 0 then 0 else (n - 1) * k
                          | _, _ => 0
                          end) in
    let fata := List.filter (fun r => bool_decide (Sqlite.race r = Some "Fata"))
                            (Sqlite.rows t) in
    exists matching reply,
      Server.listAll E (Sample.query (Some "race:Fata") s p ps) t = Some matching
      /\ matching ≡ₚ fata
      /\ reply = take size (drop skip matching)
      /\ Server.listDemons E (Sample.query (Some "race:Fata") s p ps) t = Server.Rows reply
      /\ (forall r, r ∈ reply -> r ∈ Sqlite.rows t /\ Sqlite.race r = Some "Fata")
      /\ (skip = 0%nat -> (List.length fata <= size)%nat -> reply ≡ₚ fata).
Proof.
  intros E s p ps t Hscan _ size skip fata.
  destruct (listDemons_closed_form E (Sample.query (Some "race:Fata") s p ps) t)
    as (base & matching & Hbase & Horder & Hall & Hreply).
  cbn [Sample.query Server.filter Server.sort Server.page Server.pageSize] in *.
  assert (Hperm : matching ≡ₚ fata).
  { change (Server.whereClause (Some "race:Fata")) with (Some ("race", "Fata")) in Hbase.
    unfold Sqlite.applyWhere in Hbase.
    change (Sqlite.column "race")
      with (Some (fun r => Sqlite.textOrNull (Sqlite.race r))) in Hbase.
    injection Hbase as <-.
    apply applyOrder_Permutation in Horder. rewrite Horder.
    rewrite (filter_Permutation_bool _ _ _ (Hscan (Sqlite.rows t))).
    unfold fata. erewrite List.filter_ext; [reflexivity|].
    intros r. apply race_cell_equals. }
  assert (Hin : forall r, r ∈ matching -> r ∈ Sqlite.rows t /\ Sqlite.race r = Some "Fata").
  { intros r. rewrite Hperm. unfold fata.
    rewrite !list_elem_of_In, filter_In, bool_decide_eq_true. auto. }
  exists matching, (take size (drop skip matching)).
  split; [exact Hall|]. split; [exact Hperm|]. split; [reflexivity|].
  split; [exact Hreply|]. split.
  - intros r Hr. apply Hin.
    eapply elem_of_sublist; [exact Hr|].
    etransitivity; [apply sublist_take|apply sublist_drop].
  - intros -> Hfit. rewrite drop_0, take_ge; [exact Hperm|].
    now rewrite Hperm.
Qed.

Lemma race_filter_is_exact_witness :
  exists matching reply,
    Server.listAll Sqlite.forward (Sample.query (Some "race:Fata") None None None)
      Sample.table = Some matching
    /\ matching ≡ₚ List.filter (fun r => bool_decide (Sqlite.race r = Some "Fata"))
                                (Sqlite.rows Sample.table)
    /\ reply = take 10 (drop 0 matching)
    /\ Server.listDemons Sqlite.forward (Sample.query (Some "race:Fata") None None None)
         Sample.table = Server.Rows reply
    /\ (forall r, r ∈ reply -> r ∈ Sqlite.rows Sample.table /\ Sqlite.race r = Some "Fata")
    /\ (0%nat = 0%nat ->
        (List.length (List.filter (fun r => bool_decide (Sqlite.race r = Some "Fata"))
                        (Sqlite.rows Sample.table)) <= 10)%nat ->
        reply ≡ₚ List.filter (fun r => bool_decide (Sqlite.race r = Some "Fata"))
                              (Sqlite.rows Sample.table)).
Proof.
  apply (race_filter_is_exact Sqlite.forward None None None Sample.table).
  - intros l. reflexivity.
  - vm_compute. repeat split.
Defined.

(** C7 as stated fails on a table with more matching rows than a page
    holds: all twelve rows of [Sample.dozen] have the race "Fata", and the
    request with filter=race:Fata and no page parameters returns the first
    ten of them; the rows of ids 11 and 12 match and are not returned. *)
Lemma race_filter_returns_one_page :
  let q := Sample.query (Some "race:Fata") None None None in
  List.length (List.filter (fun r => bool_decide (Sqlite.race r = Some "Fata"))
                 (Sqlite.rows Sample.dozen)) = 12%nat
  /\ Sample.ids (Server.listDemons Sqlite.forward q Sample.dozen)
     = [1; 2; 3; 4; 5; 6; 7; 8; 9; 10]
  /\ exists r rs,
      r ∈ Sqlite.rows Sample.dozen
      /\ Sqlite.id r = 11
      /\ Sqlite.race r = Some "Fata"
      /\ Server.listDemons Sqlite.forward q Sample.dozen = Server.Rows rs
      /\ r ∉ rs.
Proof.
  intros q. split; [vm_compute; reflexivity|]. split; [vm_compute; reflexivity|].
  exists (Sample.demon 11 "K" (Some "Fata")).
  eexists. split.
  { apply list_elem_of_In. vm_compute. do 10 right. left. reflexivity. }
  split; [reflexivity|]. split; [reflexivity|]. split; [vm_compute; reflexivity|].
  intros Hin. apply list_elem_of_In in Hin. vm_compute in Hin.
  repeat (destruct Hin as [Hin|Hin]; [discriminate Hin|]). exact Hin.
Qed.

(** The list route answers every query whose page numbers are in the range
    the handler computes exactly with rows, never with an error, whatever
    the filter, sort and page strings: no string reaches the statement as
    an identifier unless it went through an allowlist, and the bound LIMIT
    and OFFSET are integers.  The rows are the requested page of the rows
    that pass the filter, in some order. *)
Theorem list_route_never_fails :
  forall (E : Sqlite.Engine) (q : Server.Query) (t : Sqlite.Table),
    Server.inRange q ->
    let size := Z.to_nat (match Server.parseParam 10 (Server.pageSize q) with
                          | Js.Num k => if k <? 1 then 10 else k
                          | Js.NaN => 10
                          end) in
    let skip := Z.to_nat (match Server.parseParam 1 (Server.page q),
                                Server.parseParam 10 (Server.pageSize q) with
                          | Js.Num n, Js.Num k => if (n - 1) * k <? 0 then 0 else (n - 1) * k
                          | _, _ => 0
                          end) in
    exists base all,
      Sqlite.applyWhere E (Server.whereClause (Server.filter q))
        (Sqlite.scan E (Sqlite.rows t)) = Some base
      /\ base `sublist_of` Sqlite.scan E (Sqlite.rows t)
      /\ (Server.whereClause (Server.filter q) = None -> base = Sqlite.scan E (Sqlite.rows t))
      /\ all ≡ₚ base
      /\ Server.listDemons E q t = Server.Rows (take size (drop skip all))
      /\ Server.listDemons E q t <> Server.ListError.
Proof.
  intros E q t _ size skip.
  destruct (listDemons_closed_form E q t) as (base & all & Hbase & Horder & _ & Hreply).
  exists base, all. split; [exact Hbase|].
  split; [eapply applyWhere_sublist; exact Hbase|].
  split; [intros Hw; rewrite Hw in Hbase; now injection Hbase as <-|].
  split; [eapply applyOrder_Permutation; exact Horder|].
  split; [exact Hreply|]. rewrite Hreply. discriminate.
Qed.

Lemma list_route_never_fails_witness :
  exists base all,
    Sqlite.applyWhere Sqlite.forward (Server.whereClause (Some "name:Pixie; DROP TABLE demons"))
      (Sqlite.scan Sqlite.forward (Sqlite.rows Sample.table)) = Some base
    /\ base `sublist_of` Sqlite.scan Sqlite.forward (Sqlite.rows Sample.table)
    /\ (Server.whereClause (Some "name:Pixie; DROP TABLE demons") = None ->
        base = Sqlite.scan Sqlite.forward (Sqlite.rows Sample.table))
    /\ all ≡ₚ base
    /\ Server.listDemons Sqlite.forward
         (Sample.query (Some "name:Pixie; DROP TABLE demons") (Some "id; --_asc")
            (Some "-3") (Some "x")) Sample.table
       = Server.Rows (take 10 (drop 0 all))
    /\ Server.listDemons Sqlite.forward
         (Sample.query (Some "name:Pixie; DROP TABLE demons") (Some "id; --_asc")
            (Some "-3") (Some "x")) Sample.table
       <> Server.ListError.
Proof.
  apply (list_route_never_fails Sqlite.forward
           (Sample.query (Some "name:Pixie; DROP TABLE demons") (Some "id; --_asc")
              (Some "-3") (Some "x")) Sample.table).
  vm_compute. repeat split.
Defined.

End Replies.
